(** * Cold Pressor experiment: observation store and group comparison

    A shallow embedding of [coldpress.py]: the Streamlit session state
    (the data frame of observations and the participant counter), the two
    callbacks [add_data] and [reset_data], and the analysis routine
    [perform_ttest] together with the NumPy and SciPy operations it calls.

    Python [float]s are IEEE 754 binary64 numbers and are modelled by Rocq's
    primitive [float]; Python [int]s are modelled by [Z]. *)

From Stdlib Require Import ZArith List String Bool Lia Permutation.
From Stdlib Require Import DecimalString.
From Stdlib Require Import Floats.
Import ListNotations.

Local Open Scope string_scope.
Local Open Scope list_scope.
Local Open Scope Z_scope.

(** ** Python numbers *)

Module Py.

(** [float(n)] for a Python [int]: the nearest binary64 number. *)
Definition float_of_int (n : Z) : float :=
  SF2Prim (binary_normalize prec emax n 0 false).

(** [str(n)] for a Python [int]. *)
Definition str_of_int (n : Z) : string :=
  NilZero.string_of_int (Z.to_int n).

(** [len(xs)] *)
Definition len {A : Type} (xs : list A) : Z := Z.of_nat (List.length xs).

End Py.

(** ** Streamlit session state *)

(** One row of the data frame with columns "Deltagare", "Kön" and "Tid (s)". *)
Record row : Type := mk_row {
  Deltagare : Z;
  Kon : string;
  Tid : float
}.

Definition DataFrame : Type := list row.

(** [st.session_state]: the keys [data] and [counter]. *)
Record session_state : Type := mk_state {
  data : DataFrame;
  counter : Z
}.

(** The messages a callback shows: [st.error], [st.warning], [st.success]. *)
Inductive st_message : Type :=
| st_error (body : string)
| st_warning (body : string)
| st_success (body : string).

(** The session state created on first load (lines 31-35). *)
Definition initial_state : session_state :=
  {| data := []; counter := 1 |}.

(** [pd.concat([df, new_data], ignore_index=True)]: the rows of [new_data]
    follow those of [df]; the positional index is the place in the list. *)
Definition pd_concat (df new_data : DataFrame) : DataFrame := df ++ new_data.

(** [add_data] (lines 38-53).  The widget values [gender] and [time_sec] are
    globals of the script; here they are arguments.  [time_sec] is the value
    of a number input with integer bounds, a Python [int]. *)
Definition add_data (gender : string) (time_sec : Z) (st : session_state)
  : session_state * st_message :=
  if (gender =? "")%string || (time_sec <? 0) || (time_sec >? 300) then
    (st, st_error "Vänligen kontrollera inmatad data. Tid måste vara mellan 0 och 300 sekunder.")
  else
    let new_data :=
      [ {| Deltagare := counter st;
           Kon := gender;
           Tid := Py.float_of_int time_sec |} ] in
    let st1 := {| data := pd_concat (data st) new_data; counter := counter st |} in
    let st2 := {| data := data st1; counter := counter st1 + 1 |} in
    (st2, st_success ("Data för deltagare " ++ Py.str_of_int (counter st2 - 1)
                      ++ " har lagts till!")%string).

(** [reset_data] (lines 56-61). *)
Definition reset_data (st : session_state) : session_state * st_message :=
  let st1 := {| data := []; counter := counter st |} in
  let st2 := {| data := data st1; counter := 1 |} in
  (st2, st_success "All data har återställts!").

Definition is_error (m : st_message) : bool :=
  match m with st_error _ => true | _ => false end.

Definition is_success (m : st_message) : bool :=
  match m with st_success _ => true | _ => false end.

(** The stores a session can be in: the callbacks are the only writers. *)
Inductive reachable : session_state -> Prop :=
| reachable_initial : reachable initial_state
| reachable_add (gender : string) (time_sec : Z) (st : session_state) :
    reachable st -> reachable (fst (add_data gender time_sec st))
| reachable_reset (st : session_state) :
    reachable st -> reachable (fst (reset_data st)).

(** The two labels the radio button offers. *)
Definition recognized (gender : string) : bool :=
  (gender =? "Man")%string || (gender =? "Kvinna")%string.

(** ** NumPy reductions on one-dimensional [float64] arrays *)

Module Np.
Local Open Scope float_scope.

(** The loop of NumPy's [pairwise_sum] over eight accumulators: while eight
    elements are left, each accumulator takes one of them; then the
    accumulators are added in pairs and the remaining elements one by one. *)
Fixpoint unrolled_sum (r0 r1 r2 r3 r4 r5 r6 r7 : float) (a : list float) : float :=
  match a with
  | a0 :: a1 :: a2 :: a3 :: a4 :: a5 :: a6 :: a7 :: rest =>
      unrolled_sum (r0 + a0) (r1 + a1) (r2 + a2) (r3 + a3)
                   (r4 + a4) (r5 + a5) (r6 + a6) (r7 + a7) rest
  | _ =>
      fold_left add a (((r0 + r1) + (r2 + r3)) + ((r4 + r5) + (r6 + r7)))
  end.

(** A block of 8 to 128 elements: the accumulators start as its first eight
    elements. *)
Definition block_sum (a : list float) : float :=
  match a with
  | a0 :: a1 :: a2 :: a3 :: a4 :: a5 :: a6 :: a7 :: rest =>
      unrolled_sum a0 a1 a2 a3 a4 a5 a6 a7 rest
  | _ => fold_left add a neg_zero
  end.

(** NumPy's [pairwise_sum]: fewer than 8 elements are added in index order,
    starting from [-0.0]; up to 128 elements form one block; a longer array
    is cut at half its length, rounded down to a multiple of 8, and the sums
    of the two parts are added.  [depth] bounds the number of cuts; the
    length of the array is always enough. *)
Fixpoint pairwise_sum_rec (depth : nat) (a : list float) : float :=
  let n := List.length a in
  if (n <? 8)%nat then fold_left add a neg_zero
  else
    match depth with
    | S depth' =>
        if (128 <? n)%nat then
          let n2 := (n / 2)%nat in
          let n2 := (n2 - n2 mod 8)%nat in
          pairwise_sum_rec depth' (firstn n2 a) + pairwise_sum_rec depth' (skipn n2 a)
        else block_sum a
    | O => block_sum a
    end.

Definition pairwise_sum (a : list float) : float :=
  pairwise_sum_rec (List.length a) a.

(** [a.sum()]: [np.add.reduce], started from the identity [0.0] of [add],
    to which the pairwise sum of the elements is added. *)
Definition sum (a : list float) : float := 0 + pairwise_sum a.

(** [a.mean()]: the sum divided by the number of elements. *)
Definition mean (a : list float) : float :=
  sum a / Py.float_of_int (Py.len a).

(** [a.var(ddof=ddof)], NumPy's [_var]: the squared deviations from the
    mean are summed and divided by [max(n - ddof, 0)]. *)
Definition var (ddof : Z) (a : list float) : float :=
  let rcount := Py.len a in
  let arrmean := sum a / Py.float_of_int rcount in
  let x := map (fun v => v - arrmean) a in
  let x := map (fun v => v * v) x in
  let ret := sum x in
  let rcount := Z.max (rcount - ddof) 0 in
  ret / Py.float_of_int rcount.

(** [a.std(ddof=ddof)]; the default is [ddof=0]. *)
Definition std (ddof : Z) (a : list float) : float := sqrt (var ddof a).

End Np.

(** ** SciPy's variance *)

Module Sp.
Local Open Scope float_scope.

(** [_moment(a, 2, axis)]: the mean of the squared deviations from the
    mean (the mean itself for an empty array). *)
Definition moment2 (a : list float) : float :=
  if (Py.len a =? 0)%Z then Np.mean a
  else
    let mean := Np.mean a in
    let a_zero_mean := map (fun v => v - mean) a in
    let s := map (fun v => v * v) a_zero_mean in
    Np.mean s.

(** [_var(a, axis, ddof)]: the second moment, multiplied by [n / (n - ddof)]
    when [ddof] is not 0. *)
Definition var (ddof : Z) (a : list float) : float :=
  let var := moment2 a in
  if (ddof =? 0)%Z then var
  else
    let n := Py.len a in
    var * (Py.float_of_int n / Py.float_of_int (n - ddof)).

End Sp.

(** ** Results of the analysis *)

(** One entry of the statistics dictionary, with the keys "Medelvärde",
    "Standardavvikelse" and "Antal". *)
Record group_stats : Type := mk_stats {
  Medelvarde : float;
  Standardavvikelse : float;
  Antal : Z
}.

(** A Python [dict] with string keys, in insertion order. *)
Definition dict (V : Type) : Type := list (string * V).

Fixpoint dict_get {V : Type} (key : string) (d : dict V) : option V :=
  match d with
  | [] => None
  | (k, v) :: rest => if (k =? key)%string then Some v else dict_get key rest
  end.

(** The four values [perform_ttest] returns. *)
Definition ttest_result : Type :=
  option float * option float * option (dict group_stats) * option (dict (list float)).

(** ** SciPy: [stats.ttest_ind(a, b, equal_var=False)] and the analysis routine *)

Section Analysis.

(** [scipy.special.stdtr df t]: the distribution function of Student's t
    distribution with [df] degrees of freedom, evaluated at [t].  It is a
    compiled special function and stays a parameter of the model. *)
Variable stdtr : float -> float -> float.

Local Open Scope float_scope.

(** [_unequal_var_ttest_denom v1 n1 v2 n2]: the Welch-Satterthwaite degrees
    of freedom (replaced by 1 where the quotient is not a number) and the
    denominator of the statistic. *)
Definition unequal_var_ttest_denom (v1 : float) (n1 : Z) (v2 : float) (n2 : Z)
  : float * float :=
  let vn1 := v1 / Py.float_of_int n1 in
  let vn2 := v2 / Py.float_of_int n2 in
  let df := ((vn1 + vn2) * (vn1 + vn2))
            / (vn1 * vn1 / Py.float_of_int (n1 - 1)
               + vn2 * vn2 / Py.float_of_int (n2 - 1)) in
  let df := if is_nan df then 1 else df in
  let denom := sqrt (vn1 + vn2) in
  (df, denom).

(** [_ttest_ind_from_stats] with [alternative='two-sided']. *)
Definition ttest_ind_from_stats (mean1 mean2 denom df : float) : float * float :=
  let d := mean1 - mean2 in
  let t := d / denom in
  let prob := stdtr df (- abs t) * 2 in
  (t, prob).

(** [stats.ttest_ind(a, b, equal_var=False)]: an empty sample gives
    not-a-number twice; otherwise the variances [_var(a, axis, ddof=1)] and
    the sizes go to [_unequal_var_ttest_denom] and the means to
    [_ttest_ind_from_stats].  A square [x**2] is the product [x * x]. *)
Definition ttest_ind (a b : list float) : float * float :=
  if (Py.len a =? 0)%Z || (Py.len b =? 0)%Z then (nan, nan)
  else
    let v1 := Sp.var 1 a in
    let v2 := Sp.var 1 b in
    let n1 := Py.len a in
    let n2 := Py.len b in
    let '(df, denom) := unequal_var_ttest_denom v1 n1 v2 n2 in
    ttest_ind_from_stats (Np.mean a) (Np.mean b) denom df.

(** [pd.to_numeric] on a column that already holds floats. *)
Definition pd_to_numeric (col : list float) : list float := col.

(** [df["Tid (s)"] = col]: the column is replaced position by position. *)
Fixpoint set_Tid (df : DataFrame) (col : list float) : DataFrame :=
  match df, col with
  | r :: df', v :: col' =>
      {| Deltagare := Deltagare r; Kon := Kon r; Tid := v |} :: set_Tid df' col'
  | _, _ => []
  end.

(** [df[df["Kön"] == label]["Tid (s)"].values] *)
Definition values_where (label : string) (df : DataFrame) : list float :=
  map Tid (filter (fun r => (Kon r =? label)%string) df).

(** [perform_ttest] (lines 64-93), with the warning it shows, if any. *)
Definition perform_ttest (df : DataFrame) : ttest_result * list st_message :=
  if (Py.len df <? 2)%Z then
    ((None, None, None, None),
     [st_warning "För få deltagare för att utföra statistisk analys."])
  else
    let df := set_Tid df (pd_to_numeric (map Tid df)) in
    let male_data := values_where "Man" df in
    let female_data := values_where "Kvinna" df in
    if (Py.len male_data =? 0)%Z || (Py.len female_data =? 0)%Z then
      ((None, None, None, None),
       [st_warning "Data saknas för ett eller båda könen."])
    else
      let '(t_stat, p_val) := ttest_ind male_data female_data in
      let male_mean := Np.mean male_data in
      let female_mean := Np.mean female_data in
      let male_std := Np.std 0 male_data in
      let female_std := Np.std 0 female_data in
      ((Some t_stat, Some p_val,
        Some [ ("Man", {| Medelvarde := male_mean;
                          Standardavvikelse := male_std;
                          Antal := Py.len male_data |});
               ("Kvinna", {| Medelvarde := female_mean;
                             Standardavvikelse := female_std;
                             Antal := Py.len female_data |}) ],
        Some [ ("Man", male_data); ("Kvinna", female_data) ]),
       []).

End Analysis.

(** ** The vocabulary of the specification *)

(** Exchanging the two group labels of every observation. *)
Definition swap_label (gender : string) : string :=
  if (gender =? "Man")%string then "Kvinna"
  else if (gender =? "Kvinna")%string then "Man"
  else gender.

Definition swap_labels (df : DataFrame) : DataFrame :=
  map (fun r => {| Deltagare := Deltagare r;
                   Kon := swap_label (Kon r);
                   Tid := Tid r |}) df.

(** A measurement in the inclusive range from 0 to 300 seconds. *)
Definition in_range (v : float) : bool :=
  ((0 <=? v) && (v <=? 300))%float.

Module Spec.
Local Open Scope float_scope.

(** The arithmetic mean of the values. *)
Definition arithmetic_mean (xs : list float) : float :=
  Np.sum xs / Py.float_of_int (Py.len xs).

Definition squared_deviations (xs : list float) : list float :=
  map (fun x => (x - arithmetic_mean xs) * (x - arithmetic_mean xs)) xs.

(** The sample variance with Bessel's correction: divisor [n - 1]. *)
Definition sample_variance (xs : list float) : float :=
  Np.sum (squared_deviations xs) / Py.float_of_int (Py.len xs - 1).


(** The sample standard deviation with Bessel's correction. *)
Definition sample_standard_deviation (xs : list float) : float :=
  sqrt (sample_variance xs).

(** The population standard deviation: divisor [n]. *)
Definition population_standard_deviation (xs : list float) : float :=
  sqrt (Np.sum (squared_deviations xs) / Py.float_of_int (Py.len xs)).

(** Welch's statistic [(mean1 - mean2) / sqrt (var1/n1 + var2/n2)]. *)
Definition welch_t (mean1 mean2 var1 : float) (n1 : Z) (var2 : float) (n2 : Z)
  : float :=
  (mean1 - mean2)
  / sqrt (var1 / Py.float_of_int n1 + var2 / Py.float_of_int n2).

(** The Welch-Satterthwaite degrees of freedom
    [(var1/n1 + var2/n2)^2 / ((var1/n1)^2/(n1-1) + (var2/n2)^2/(n2-1))]. *)
Definition welch_satterthwaite_df (var1 : float) (n1 : Z) (var2 : float) (n2 : Z)
  : float :=
  let q1 := var1 / Py.float_of_int n1 in
  let q2 := var2 / Py.float_of_int n2 in
  ((q1 + q2) * (q1 + q2))
  / (q1 * q1 / Py.float_of_int (n1 - 1) + q2 * q2 / Py.float_of_int (n2 - 1)).


End Spec.

(** What the analysis relies on from [scipy.special.stdtr]: a value that is
    not a number is passed on, and for a positive number of degrees of
    freedom the result is a probability. *)
Definition propagates_nan (cdf : float -> float -> float) : Prop :=
  forall df, cdf df nan = nan.

Definition yields_probabilities (cdf : float -> float -> float) : Prop :=
  forall df t, (0 <? df)%float = true -> is_nan t = false ->
    (0 <=? cdf df t)%float = true /\ (cdf df t <=? 1)%float = true.

(** The statistic [t'] is the negation of [t] as Python compares floats
    ([t' == -t]), or both are not a number. *)
Definition negated (t t' : float) : Prop :=
  (is_nan t = true /\ is_nan t' = true) \/ (t' =? - t)%float = true.

(** A float is finite when its specification value is a zero or a finite
    number. *)
Definition SFfinite (x : spec_float) : bool :=
  match x with
  | S754_zero _ | S754_finite _ _ _ => true
  | _ => false
  end.

(** A stand-in for the distribution function that meets the assumptions made
    on [stdtr] below: a unit step at the origin. *)
Definition step_cdf (df t : float) : float :=
  if is_nan t || negb (0 <? df)%float then nan
  else if (t <? 0)%float then 0%float
  else 1%float.

(** The store of Scenario A. *)
Definition scenario_A : DataFrame :=
  data (fst (add_data "Kvinna" 90 (fst (add_data "Kvinna" 80
       (fst (add_data "Man" 50 (fst (add_data "Man" 45 initial_state)))))))).


(** ** The charts and the page *)

(** The frame [plot_df] of [create_boxplot]: the columns "Kön" and
    "Tid (s)", row by row. *)
Definition plot_frame : Type := list (string * float).

(** [pd.DataFrame({"Kön": labels, "Tid (s)": plot_data})]: pandas raises
    [ValueError] when the two columns differ in length. *)
Definition pd_DataFrame (labels : list string) (plot_data : list float)
  : option plot_frame :=
  if Py.len labels =? Py.len plot_data then Some (combine labels plot_data)
  else None.

(** [create_boxplot] (lines 96-118) up to the frame it hands to seaborn's
    [boxplot] and [stripplot]; the drawing itself is outside the model.
    [None] stands for the exception of the frame constructor. *)
Definition create_boxplot (data_dict : dict (list float)) : option plot_frame :=
  let '(plot_data, labels) :=
    fold_left
      (fun acc item =>
         let '(gender, times) := item in
         fold_left
           (fun acc time =>
              let '(plot_data, labels) := acc in
              (plot_data ++ [time], labels ++ [gender]))
           times acc)
      data_dict ([], []) in
  pd_DataFrame labels plot_data.

(** One bar of the bar chart: its label, its height, its error bar and the
    height at which its value is written (line 138). *)
Record bar : Type := mk_bar {
  bar_label : string;
  bar_height : float;
  bar_yerr : float;
  bar_text_y : float
}.

(** [[f(stats_dict[g]) for g in genders]]: a missing key raises [KeyError],
    here [None]. *)
Fixpoint lookup_each {V A : Type} (f : V -> A) (d : dict V) (genders : list string)
  : option (list A) :=
  match genders with
  | [] => Some []
  | g :: rest =>
      match dict_get g d with
      | None => None
      | Some v =>
          match lookup_each f d rest with
          | None => None
          | Some vs => Some (f v :: vs)
          end
      end
  end.

(** One bar per label, from three sequences of the same length. *)
Fixpoint zip_bars (genders : list string) (means stds : list float)
  : option (list (string * float * float)) :=
  match genders, means, stds with
  | [], [], [] => Some []
  | g :: genders', m :: means', s :: stds' =>
      match zip_bars genders' means' stds' with
      | None => None
      | Some bars => Some ((g, m, s) :: bars)
      end
  | _, _, _ => None
  end.

(** The test Matplotlib's [errorbar] applies to every error: [err < -err],
    false of a value that is not a number. *)
Definition negative_err (err : float) : bool := (err <? - err)%float.

(** [ax.bar(genders, means, yerr=stds, ...)]: one bar per label; Matplotlib
    raises [ValueError] when the three sequences differ in length and when
    an error bar is negative. *)
Definition ax_bar (genders : list string) (means stds : list float)
  : option (list (string * float * float)) :=
  if existsb negative_err stds then None
  else zip_bars genders means stds.

(** [create_barplot] (lines 121-142) up to the bars and the heights of their
    value labels; the formatted texts and the drawing are outside the
    model. *)
Definition create_barplot (stats_dict : dict group_stats) : option (list bar) :=
  let genders := map fst stats_dict in
  match lookup_each Medelvarde stats_dict genders with
  | None => None
  | Some means =>
      match lookup_each Standardavvikelse stats_dict genders with
      | None => None
      | Some stds =>
          match ax_bar genders means stds with
          | None => None
          | Some bars =>
              Some (map (fun '(g, height, yerr) =>
                           {| bar_label := g; bar_height := height;
                              bar_yerr := yerr;
                              bar_text_y := (height + 5)%float |}) bars)
          end
      end
  end.

(** What the page shows as a status: a callback message or [st.info]. *)
Inductive page_message : Type :=
| st_shown (m : st_message)
| st_info (body : string).

(** The verdict of lines 211-214.  The threshold is Python's [0.05], the
    binary64 number nearest to 1/20. *)
Definition significance (p_val : float) : page_message :=
  if (p_val <? 0x1.999999999999ap-5)%float then
    st_shown (st_success "Signifikant skillnad hittades mellan män och kvinnor (p < 0.05)")
  else
    st_info "Ingen signifikant skillnad hittades mellan män och kvinnor (p > 0.05)".

(** The status messages of the part of the script that follows the form
    (lines 171-227): the warning of [perform_ttest] or the verdict when the
    store holds data, a notice when it is empty.  [None] stands for the
    [TypeError] of comparing [None] with a number. *)
Definition page_messages (stdtr : float -> float -> float) (st : session_state)
  : option (list page_message) :=
  if negb (Py.len (data st) =? 0) then
    let '((t_stat, p_val, stats_dict, data_dict), warnings) :=
      perform_ttest stdtr (data st) in
    match t_stat with
    | Some _ =>
        match p_val with
        | Some p => Some (map st_shown warnings ++ [significance p])
        | None => None
        end
    | None => Some (map st_shown warnings)
    end
  else
    Some [st_info "Ingen data har registrerats ännu. Använd formuläret ovan för att lägga till data."].

(** A specification value that is not negative: not a number, [+0], or a
    finite or infinite value with the sign bit clear. *)
Definition SFnonneg (x : spec_float) : bool :=
  match x with
  | S754_nan => true
  | S754_zero s | S754_infinity s | S754_finite s _ _ => negb s
  end.

(** The same, or [-0]: what a sum started from [-0.0] can be. *)
Definition SFweak_nonneg (x : spec_float) : bool :=
  match x with
  | S754_zero _ => true
  | _ => SFnonneg x
  end.

(** * Facts about binary64 arithmetic *)

Module Float64.

(** Case analysis on a float through its specification value. *)
Lemma SF_nan_inv (x : float) : Prim2SF x = S754_nan -> x = nan.
Proof. intro H. apply Prim2SF_inj. rewrite H. reflexivity. Qed.

Lemma SF_zero_inv (x : float) (s : bool) :
  Prim2SF x = S754_zero s -> x = if s then neg_zero else zero.
Proof. intro H. apply Prim2SF_inj. rewrite H. destruct s; reflexivity. Qed.

Lemma SF_infinity_inv (x : float) (s : bool) :
  Prim2SF x = S754_infinity s -> x = if s then neg_infinity else infinity.
Proof. intro H. apply Prim2SF_inj. rewrite H. destruct s; reflexivity. Qed.

Lemma SFcompare_refl x : x <> S754_nan -> SFcompare x x = Some Eq.
Proof.
  destruct x as [s|s| |s m e]; try congruence; intros _; simpl.
  - reflexivity.
  - destruct s; reflexivity.
  - rewrite Z.compare_refl.
    change (Pos.compare_cont Eq m m) with (Pos.compare m m).
    rewrite Pos.compare_refl. destruct s; reflexivity.
Qed.

Lemma is_nan_true_iff (x : float) : is_nan x = true <-> x = nan.
Proof.
  unfold is_nan. rewrite eqb_spec. split.
  - intro H. apply SF_nan_inv.
    destruct (Prim2SF x) eqn:E; try reflexivity;
      unfold SFeqb in H; rewrite SFcompare_refl in H by congruence; discriminate.
  - intros ->. reflexivity.
Qed.

(** The specification is written with the integer operations of the core
    library; they are the ones of [ZArith] under another name. *)
Ltac std_Z :=
  change IntDef.Z.add with Z.add in *; change IntDef.Z.sub with Z.sub in *;
  change IntDef.Z.mul with Z.mul in *; change IntDef.Z.opp with Z.opp in *;
  change IntDef.Z.max with Z.max in *; change IntDef.Z.min with Z.min in *;
  change IntDef.Z.leb with Z.leb in *; change IntDef.Z.eqb with Z.eqb in *;
  change IntDef.Z.compare with Z.compare in *;
  change IntDef.Z.shiftl with Z.shiftl in *;
  change IntDef.Z.div_eucl with Z.div_eucl in *.

(** Lifting an equation between specification values. *)
Ltac by_spec :=
  apply Prim2SF_inj;
  repeat first [ rewrite add_spec | rewrite sub_spec | rewrite mul_spec
               | rewrite div_spec | rewrite sqrt_spec | rewrite opp_spec
               | rewrite abs_spec ].

Lemma add_nan_l x : (nan + x)%float = nan.
Proof. by_spec. reflexivity. Qed.
Lemma add_nan_r x : (x + nan)%float = nan.
Proof. by_spec. destruct (Prim2SF x); reflexivity. Qed.
Lemma div_nan_l x : (nan / x)%float = nan.
Proof. by_spec. reflexivity. Qed.
Lemma div_nan_r x : (x / nan)%float = nan.
Proof. by_spec. destruct (Prim2SF x); reflexivity. Qed.

Lemma add_comm x y : (x + y)%float = (y + x)%float.
Proof.
  by_spec.
  destruct (Prim2SF x) as [sx|sx| |sx mx ex], (Prim2SF y) as [sy|sy| |sy my ey];
    try reflexivity; try (destruct sx, sy; reflexivity).
  unfold SF64add, SFadd. rewrite (Z.min_comm ey ex). f_equal. apply Z.add_comm.
Qed.

(** Rounding acts on the magnitude; the sign is attached at the end. *)
Lemma binary_round_aux_negb s m e l :
  binary_round_aux prec emax (negb s) m e l
  = SFopp (binary_round_aux prec emax s m e l).
Proof.
  unfold binary_round_aux.
  destruct (shr_fexp prec emax m e l) as [mrs' e'].
  destruct (shr_fexp prec emax _ e' loc_Exact) as [mrs'' e''].
  destruct (shr_m mrs''); try reflexivity.
  destruct (e'' <=? emax - prec); reflexivity.
Qed.

Lemma binary_round_negb s m e :
  binary_round prec emax (negb s) m e = SFopp (binary_round prec emax s m e).
Proof.
  unfold binary_round.
  destruct (shl_align m e _) as [mz ez]. apply binary_round_aux_negb.
Qed.

(** The difference taken the other way round: the negation, except that a
    zero difference is [+0] both ways. *)
Lemma SFsub_swap x y :
  SF64sub y x = SFopp (SF64sub x y)
  \/ (SF64sub x y = S754_zero false /\ SF64sub y x = S754_zero false).
Proof.
  destruct x as [sx|sx| |sx mx ex], y as [sy|sy| |sy my ey];
    try (left; reflexivity);
    try (destruct sx, sy; (left; reflexivity) || (right; split; reflexivity)).
  unfold SF64sub, SFsub. rewrite (Z.min_comm ey ex).
  set (ez := Z.min ex ey).
  set (X := cond_Zopp sx (Z.pos (fst (shl_align mx ex ez)))).
  set (Y := cond_Zopp sy (Z.pos (fst (shl_align my ey ez)))).
  replace (Y - X) with (- (X - Y)) by lia.
  destruct (X - Y) as [|p|p]; simpl.
  - right. split; reflexivity.
  - left. apply (binary_round_negb false).
  - left. change false with (negb true) at 1.
    rewrite binary_round_negb.
    destruct (binary_round prec emax true p ez) as [s|s| |s m e]; simpl;
      rewrite ?Bool.negb_involutive; reflexivity.
Qed.

Lemma SFdiv_opp_l x y : SF64div (SFopp x) y = SFopp (SF64div x y).
Proof.
  destruct x as [sx|sx| |sx mx ex], y as [sy|sy| |sy my ey];
    try reflexivity; try (destruct sx, sy; reflexivity).
  unfold SF64div, SFdiv, SFopp at 1.
  destruct (SFdiv_core_binary prec emax (Z.pos mx) ex (Z.pos my) ey) as [[mz ez] lz].
  replace (xorb (negb sx) sy) with (negb (xorb sx sy)) by (destruct sx, sy; reflexivity).
  apply binary_round_aux_negb.
Qed.

Lemma sub_swap x y :
  (y - x = - (x - y))%float \/ ((x - y)%float = zero /\ (y - x)%float = zero).
Proof.
  destruct (SFsub_swap (Prim2SF x) (Prim2SF y)) as [H | [H1 H2]].
  - left. by_spec. exact H.
  - right. split; apply Prim2SF_inj; rewrite sub_spec; assumption.
Qed.

Lemma div_opp_l x y : (- x / y = - (x / y))%float.
Proof. by_spec. apply SFdiv_opp_l. Qed.

Lemma abs_opp x : abs (- x) = abs x.
Proof. by_spec. destruct (Prim2SF x); reflexivity. Qed.

Lemma bounded_inv m e :
  bounded prec emax m e = true ->
  Z.max (Z.pos (digits2_pos m) + e - 53) (-1074) = e /\ e <= 971.
Proof.
  unfold bounded, canonical_mantissa, fexp, SpecFloat.emin, prec, emax.
  rewrite Bool.andb_true_iff, Z.eqb_eq, Z.leb_le. simpl. tauto.
Qed.

Lemma Zdiv_eucl_mul a b : 0 < b -> Z.div_eucl (a * b) b = (a, 0).
Proof.
  intro Hb.
  assert (Hd : (a * b) / b = a) by (apply Z.div_mul; lia).
  assert (Hm : (a * b) mod b = 0) by (apply Z.mod_mul; lia).
  unfold Z.div, Z.modulo in Hd, Hm.
  destruct (Z.div_eucl (a * b) b) as [q r]. congruence.
Qed.

Ltac round_step :=
  cbn [shr shr_m shr_1 iter_pos round_nearest_even loc_of_shr_record
       shr_record_of_loc Zdigits2 digits2_pos orb].

(** A mantissa that is already canonical is left alone by rounding. *)
Lemma binary_round_aux_canonical s m e :
  bounded prec emax m e = true ->
  binary_round_aux prec emax s (Z.pos m) e loc_Exact = S754_finite s m e.
Proof.
  intro Hb. apply bounded_inv in Hb. destruct Hb as [Hc He].
  unfold binary_round_aux, shr_fexp, fexp, SpecFloat.emin, prec, emax.
  std_Z. round_step.
  match goal with |- context [shr ?r e ?n] => replace n with 0 by lia end.
  round_step.
  match goal with |- context [shr ?r e ?n] => replace n with 0 by lia end.
  round_step. change (1024 - 53) with 971.
  apply Z.leb_le in He. rewrite He. reflexivity.
Qed.

(** The same mantissa written with one more binary digit. *)
Lemma binary_round_aux_double s m e :
  bounded prec emax m e = true -> -1074 < e ->
  binary_round_aux prec emax s (Z.pos m~0) (e - 1) loc_Exact = S754_finite s m e.
Proof.
  intros Hb Hlo. apply bounded_inv in Hb. destruct Hb as [Hc He].
  unfold binary_round_aux, shr_fexp, fexp, SpecFloat.emin, prec, emax.
  std_Z. round_step.
  match goal with |- context [shr ?r (e - 1) ?n] => replace n with 1 by lia end.
  round_step. replace (e - 1 + 1) with e by lia.
  match goal with |- context [shr ?r e ?n] => replace n with 0 by lia end.
  round_step. change (1024 - 53) with 971.
  apply Z.leb_le in He. rewrite He. reflexivity.
Qed.

Lemma SFdiv_one x : valid_binary x = true -> SF64div x (Prim2SF one) = x.
Proof.
  destruct x as [s|s| |s m e]; try (destruct s; reflexivity); try reflexivity.
  simpl valid_binary. intro Hb. pose proof (bounded_inv _ _ Hb) as [Hc He].
  change (Prim2SF one) with (S754_finite false 4503599627370496 (-52)).
  unfold SF64div, SFdiv, SFdiv_core_binary.
  change (Zdigits2 (Z.pos 4503599627370496)) with 53.
  unfold Zdigits2, fexp, SpecFloat.emin, prec, emax.
  std_Z. rewrite Bool.xorb_false_r.
  set (e' := Z.min _ _).
  assert (He' : e' = e \/ (e' = e - 1 /\ -1074 < e)) by (subst e'; lia).
  destruct He' as [-> | [-> Hlo]].
  - replace (e - -52 - e) with 52 by lia.
    rewrite Z.shiftl_mul_pow2 by lia.
    rewrite Zdiv_eucl_mul by reflexivity.
    change (new_location 4503599627370496 0) with loc_Exact.
    apply binary_round_aux_canonical, Hb.
  - replace (e - -52 - (e - 1)) with 53 by lia.
    rewrite Z.shiftl_mul_pow2 by lia.
    replace (Z.pos m * 2 ^ 53) with (Z.pos m~0 * 4503599627370496) by lia.
    rewrite Zdiv_eucl_mul by reflexivity.
    change (new_location 4503599627370496 0) with loc_Exact.
    apply binary_round_aux_double; assumption.
Qed.

Lemma div_one x : (x / one)%float = x.
Proof.
  apply Prim2SF_inj. rewrite div_spec. apply SFdiv_one, Prim2SF_valid.
Qed.

Lemma is_finite_spec x : is_finite x = SFfinite (Prim2SF x).
Proof.
  unfold is_finite, is_nan, is_infinity.
  rewrite !eqb_spec, abs_spec.
  change (Prim2SF infinity) with (S754_infinity false).
  destruct (Prim2SF x) as [s|s| |s m e]; try (destruct s; reflexivity).
  - reflexivity.
  - unfold SFeqb at 1. rewrite SFcompare_refl by discriminate. reflexivity.
Qed.

Lemma zero_add x : x <> neg_zero -> (zero + x)%float = x.
Proof.
  intro Hx. by_spec. change (Prim2SF zero) with (S754_zero false).
  destruct (Prim2SF x) as [s|s| |s m e] eqn:E; try reflexivity.
  destruct s; try reflexivity.
  apply SF_zero_inv in E. contradiction.
Qed.

Lemma SFsub_diag x : SFfinite x = true -> SF64sub x x = S754_zero false.
Proof.
  destruct x as [s|s| |s m e]; try discriminate; intros _.
  - destruct s; reflexivity.
  - unfold SF64sub, SFsub. std_Z. rewrite Z.sub_diag. reflexivity.
Qed.

Lemma sub_diag x : is_finite x = true -> (x - x)%float = zero.
Proof.
  rewrite is_finite_spec. intro H. by_spec. apply SFsub_diag, H.
Qed.

Ltac std_Pos :=
  change PosDef.Pos.mul with Pos.mul in *; change PosDef.Pos.add with Pos.add in *;
  change PosDef.Pos.succ with Pos.succ in *.

(** Rounding a canonical mantissa that was shifted left by 52 or 51 places
    shifts it back. *)
Ltac round_shifted k e Hb :=
  apply bounded_inv in Hb; destruct Hb as [Hc He];
  unfold binary_round_aux, shr_fexp, fexp, SpecFloat.emin, prec, emax;
  std_Z; cbn [Pos.mul]; round_step;
  match goal with |- context [shr ?r (e - k) ?n] => replace n with k by lia end;
  round_step; replace (e - k + k) with e by lia;
  match goal with |- context [shr ?r e ?n] => replace n with 0 by lia end;
  round_step; change (1024 - 53) with 971;
  apply Z.leb_le in He; rewrite He; reflexivity.

Lemma binary_round_aux_shift52 s m e :
  bounded prec emax m e = true ->
  binary_round_aux prec emax s (Z.pos (4503599627370496 * m)) (e - 52) loc_Exact
  = S754_finite s m e.
Proof. intro Hb. round_shifted 52 e Hb. Qed.

Lemma binary_round_aux_shift51 s m e :
  bounded prec emax m e = true ->
  binary_round_aux prec emax s (Z.pos (2251799813685248 * m)) (e - 51) loc_Exact
  = S754_finite s m e.
Proof. intro Hb. round_shifted 51 e Hb. Qed.

Lemma SFmul_two_finite x :
  valid_binary x = true ->
  SFleb (S754_zero false) x = true -> SFleb x (Prim2SF one) = true ->
  SFfinite (SF64mul x (Prim2SF two)) = true.
Proof.
  change (Prim2SF one) with (S754_finite false 4503599627370496 (-52)).
  change (Prim2SF two) with (S754_finite false 4503599627370496 (-51)).
  destruct x as [s|s| |s m e]; try (destruct s; reflexivity || discriminate);
    try discriminate.
  simpl valid_binary. intros Hb H0 H1.
  destruct s; [discriminate|].
  assert (He : e <= -52).
  { unfold SFleb, SFcompare in H1. std_Z.
    destruct (Z.compare_spec e (-52)); lia || discriminate. }
  pose proof (bounded_inv _ _ Hb) as [Hc _].
  unfold SF64mul, SFmul. std_Z. std_Pos. rewrite Pos.mul_comm.
  cbn [xorb].
  destruct (Z.eq_dec (Z.pos (digits2_pos m)) 53) as [Hd | Hd].
  - replace (e + -51) with ((e + 1) - 52) by lia.
    rewrite binary_round_aux_shift52; [reflexivity|].
    unfold bounded, canonical_mantissa, fexp, SpecFloat.emin, prec, emax. std_Z.
    apply Bool.andb_true_iff; split; [apply Z.eqb_eq | apply Z.leb_le]; lia.
  - replace (4503599627370496 * m)%positive with (2251799813685248 * m~0)%positive by lia.
    replace (e + -51) with (e - 51) by lia.
    rewrite binary_round_aux_shift51; [reflexivity|].
    unfold bounded, canonical_mantissa, fexp, SpecFloat.emin, prec, emax. std_Z.
    cbn [digits2_pos].
    apply Bool.andb_true_iff; split; [apply Z.eqb_eq | apply Z.leb_le]; lia.
Qed.

(** A probability doubled is a finite number. *)
Lemma mul_two_finite x :
  (zero <=? x)%float = true -> (x <=? one)%float = true ->
  is_finite (x * two)%float = true.
Proof.
  rewrite !leb_spec, is_finite_spec, mul_spec.
  change (Prim2SF zero) with (S754_zero false).
  apply SFmul_two_finite, Prim2SF_valid.
Qed.

Lemma mul_comm x y : (x * y)%float = (y * x)%float.
Proof.
  by_spec.
  destruct (Prim2SF x) as [sx|sx| |sx mx ex], (Prim2SF y) as [sy|sy| |sy my ey];
    try reflexivity; try (destruct sx, sy; reflexivity).
  unfold SF64mul, SFmul. std_Z. std_Pos.
  rewrite (Bool.xorb_comm sy sx), (Pos.mul_comm my mx), (Z.add_comm ey ex).
  reflexivity.
Qed.

(** A measurement between 0 and 300 is a finite number. *)
Lemma in_range_finite v : in_range v = true -> is_finite v = true.
Proof.
  unfold in_range. rewrite Bool.andb_true_iff, !leb_spec, is_finite_spec.
  change (Prim2SF 0) with (S754_zero false).
  change (Prim2SF 300) with (S754_finite false 5277655813324800 (-44)).
  intros [H0 H1].
  destruct (Prim2SF v) as [[]|[]| |[] m e]; reflexivity || discriminate.
Qed.

Lemma neg_zero_add x : (neg_zero + x)%float = x.
Proof.
  by_spec. change (Prim2SF neg_zero) with (S754_zero true).
  destruct (Prim2SF x) as [[]|[]| |[] m e]; reflexivity.
Qed.

Lemma eqb_refl x : is_nan x = false -> (x =? x)%float = true.
Proof. unfold is_nan. destruct (x =? x)%float; [reflexivity | discriminate]. Qed.

(** A zero divided by anything is a zero or not a number. *)
Lemma zero_div_cases c :
  (zero / c)%float = zero \/ (zero / c)%float = neg_zero \/ (zero / c)%float = nan.
Proof.
  assert (H : exists s, SF64div (S754_zero false) (Prim2SF c) = S754_zero s
              \/ SF64div (S754_zero false) (Prim2SF c) = S754_nan).
  { destruct (Prim2SF c) as [s|s| |s m e];
      try (exists s; left; reflexivity); exists false; right; reflexivity. }
  destruct H as [s [H | H]].
  - assert (E : (zero / c)%float = if s then neg_zero else zero)
      by (apply SF_zero_inv; rewrite div_spec; exact H).
    destruct s; auto.
  - right. right. apply SF_nan_inv. rewrite div_spec. exact H.
Qed.

End Float64.



(** * The observation store *)

Lemma recognized_nonempty gender : recognized gender = true -> gender <> "".
Proof. intros H ->. discriminate H. Qed.

(** The guard of [add_data] (line 40) in logical form. *)
Lemma add_data_guard gender time_sec :
  (gender =? "")%string || (time_sec <? 0) || (time_sec >? 300) = false
  <-> gender <> "" /\ 0 <= time_sec <= 300.
Proof.
  rewrite !Bool.orb_false_iff, String.eqb_neq, Z.ltb_ge, Z.gtb_ltb, Z.ltb_ge.
  tauto.
Qed.

Lemma add_data_accepted gender time_sec st :
  gender <> "" -> 0 <= time_sec <= 300 ->
  add_data gender time_sec st =
  ({| data := data st ++ [ {| Deltagare := counter st; Kon := gender;
                             Tid := Py.float_of_int time_sec |} ];
      counter := counter st + 1 |},
   st_success ("Data för deltagare " ++ Py.str_of_int (counter st)
               ++ " har lagts till!")%string).
Proof.
  intros Hg Ht. unfold add_data.
  destruct (add_data_guard gender time_sec) as [_ ->]; [|tauto].
  cbn [data counter pd_concat].
  replace (counter st + 1 - 1) with (counter st) by lia. reflexivity.
Qed.

Lemma add_data_rejected gender time_sec st :
  gender = "" \/ time_sec < 0 \/ 300 < time_sec ->
  add_data gender time_sec st =
  (st, st_error "Vänligen kontrollera inmatad data. Tid måste vara mellan 0 och 300 sekunder.").
Proof.
  intro H. unfold add_data.
  destruct ((gender =? "")%string || (time_sec <? 0) || (time_sec >? 300)) eqn:G;
    [reflexivity|].
  apply add_data_guard in G. exfalso. destruct H as [H | H]; [tauto | lia].
Qed.

Lemma reset_data_eq st :
  reset_data st = (initial_state, st_success "All data har återställts!").
Proof. reflexivity. Qed.

(** The measurement stored for an accepted input lies between 0 and 300. *)
Lemma float_of_int_in_range z :
  0 <= z <= 300 -> in_range (Py.float_of_int z) = true.
Proof.
  intro Hz.
  assert (All : forallb (fun n => in_range (Py.float_of_int (Z.of_nat n)))
                  (seq 0 301) = true) by (vm_compute; reflexivity).
  rewrite forallb_forall in All.
  rewrite <- (Z2Nat.id z) by lia. apply All, in_seq. lia.
Qed.

(** The invariant of the store: every measurement lies between 0 and 300,
    and every participant number is below the counter. *)
Lemma reachable_invariant st :
  reachable st ->
  Forall (fun r => in_range (Tid r) = true /\ 1 <= Deltagare r < counter st)
    (data st)
  /\ 1 <= counter st.
Proof.
  induction 1 as [| gender time_sec st _ [IH Hc] | st _ _].
  - split; [constructor | cbn; lia].
  - destruct (Z_lt_ge_dec time_sec 0) as [Hlo | Hlo];
      [rewrite add_data_rejected by tauto; tauto |].
    destruct (Z_lt_ge_dec 300 time_sec) as [Hhi | Hhi];
      [rewrite add_data_rejected by tauto; tauto |].
    destruct (String.eqb_spec gender "") as [He | He];
      [rewrite add_data_rejected by tauto; tauto |].
    rewrite add_data_accepted by (auto; lia). cbn [fst data counter].
    split; [| lia].
    apply Forall_app. split.
    + eapply Forall_impl; [| exact IH]. cbn beta. intros r [Hr Hd].
      split; [exact Hr | lia].
    + constructor; [| constructor]. cbn [Tid Deltagare].
      split; [apply float_of_int_in_range; lia | lia].
  - rewrite reset_data_eq. split; [constructor | cbn; lia].
Qed.

(** C3: for every store state and every input with a recognized group label
    and a value in the inclusive range from 0 to 300, [add_data] succeeds, the
    stored observation carries the counter value from before the call, the
    counter grows by one, and the store is the old store followed by the new
    observation, so that its length grows by exactly one. *)
Theorem add_data_appends (st : session_state) (gender : string) (time_sec : Z) :
  recognized gender = true ->
  0 <= time_sec <= 300 ->
  let st' := fst (add_data gender time_sec st) in
  is_success (snd (add_data gender time_sec st)) = true
  /\ data st' = data st ++ [ {| Deltagare := counter st; Kon := gender;
                                Tid := Py.float_of_int time_sec |} ]
  /\ counter st' = counter st + 1
  /\ Py.len (data st') = Py.len (data st) + 1.
Proof.
  intros Hg Ht. cbv zeta.
  rewrite add_data_accepted by auto using recognized_nonempty.
  cbn [fst snd data counter is_success]. repeat split.
  unfold Py.len. rewrite length_app. cbn [List.length]. lia.
Qed.

Lemma add_data_appends_witness :
  recognized "Kvinna" = true /\ 0 <= 80 <= 300
  /\ data (fst (add_data "Kvinna" 80 (fst (add_data "Man" 45 initial_state))))
     = [ {| Deltagare := 1; Kon := "Man"; Tid := 45%float |};
         {| Deltagare := 2; Kon := "Kvinna"; Tid := 80%float |} ].
Proof.
  split; [reflexivity | split; [lia |]].
  destruct (add_data_appends (fst (add_data "Man" 45 initial_state)) "Kvinna" 80)
    as (_ & Hd & _); [reflexivity | lia |].
  rewrite Hd. reflexivity.
Defined.

(** C4: for every store state and every input whose value is below 0 or
    above 300, or whose group is the empty string, [add_data] reports an
    error and leaves both the observations and the counter as they were. *)
Theorem add_data_rejects_invalid (st : session_state) (gender : string) (time_sec : Z) :
  time_sec < 0 \/ 300 < time_sec \/ gender = ""%string ->
  is_error (snd (add_data gender time_sec st)) = true
  /\ fst (add_data gender time_sec st) = st
  /\ data (fst (add_data gender time_sec st)) = data st
  /\ counter (fst (add_data gender time_sec st)) = counter st.
Proof.
  intro H. rewrite add_data_rejected by tauto. repeat split.
Qed.

Lemma add_data_rejects_invalid_witness :
  (1000 < 0 \/ 300 < 1000 \/ "Man"%string = ""%string)
  /\ is_error (snd (add_data "Man" 1000 initial_state)) = true
  /\ fst (add_data "Man" 1000 initial_state) = initial_state.
Proof.
  assert (H : 1000 < 0 \/ 300 < 1000 \/ "Man"%string = ""%string) by (right; left; lia).
  split; [exact H |].
  destruct (add_data_rejects_invalid initial_state "Man" 1000 H) as (He & Hs & _).
  split; assumption.
Defined.

(** C5, as the code has it: a group label that is not empty and not one of the
    two recognized labels is not refused by [add_data].  The call reports an
    error and leaves the store unchanged when the value is outside the range
    from 0 to 300, and otherwise stores the observation under that label. *)
Theorem add_data_unrecognized_label (st : session_state) (gender : string) (time_sec : Z) :
  gender <> ""%string ->
  recognized gender = false ->
  (time_sec < 0 \/ 300 < time_sec ->
     is_error (snd (add_data gender time_sec st)) = true
     /\ fst (add_data gender time_sec st) = st)
  /\ (0 <= time_sec <= 300 ->
     is_success (snd (add_data gender time_sec st)) = true
     /\ data (fst (add_data gender time_sec st))
        = data st ++ [ {| Deltagare := counter st; Kon := gender;
                          Tid := Py.float_of_int time_sec |} ]
     /\ counter (fst (add_data gender time_sec st)) = counter st + 1).
Proof.
  intros Hg _. split; intro Ht.
  - rewrite add_data_rejected by tauto. split; reflexivity.
  - rewrite add_data_accepted by assumption. repeat split.
Qed.

Lemma add_data_unrecognized_label_witness :
  "Annat"%string <> ""%string /\ recognized "Annat" = false /\ 0 <= 10 <= 300
  /\ data (fst (add_data "Annat" 10 initial_state))
     = [ {| Deltagare := 1; Kon := "Annat"; Tid := 10%float |} ].
Proof.
  assert (Hg : "Annat"%string <> ""%string) by discriminate.
  assert (Ht : 0 <= 10 <= 300) by lia.
  split; [exact Hg | split; [reflexivity | split; [exact Ht |]]].
  destruct (add_data_unrecognized_label initial_state "Annat" 10 Hg eq_refl)
    as [_ Hin].
  destruct (Hin Ht) as (_ & Hd & _). rewrite Hd. reflexivity.
Defined.

(** C5 as stated fails: the label "Annat" is neither empty nor recognized,
    and [add_data] stores it. *)
Lemma unrecognized_label_is_stored :
  recognized "Annat" = false
  /\ ("Annat" =? "")%string = false
  /\ add_data "Annat" 10 initial_state
     = ({| data := [ {| Deltagare := 1; Kon := "Annat"; Tid := 10%float |} ];
           counter := 2 |},
        st_success "Data för deltagare 1 har lagts till!")
  /\ is_error (snd (add_data "Annat" 10 initial_state)) = false.
Proof. repeat split. Qed.

(** C6: for every store state, [reset_data] succeeds, leaves no observation
    and sets the counter to 1; in particular, after three observations were
    added (the counter then stands at 4), resetting and adding one observation
    gives that observation the number 1. *)
Theorem reset_data_clears (st : session_state) :
  is_success (snd (reset_data st)) = true
  /\ data (fst (reset_data st)) = []
  /\ counter (fst (reset_data st)) = 1
  /\ forall g1 v1 g2 v2 g3 v3 g v,
       recognized g1 = true -> 0 <= v1 <= 300 ->
       recognized g2 = true -> 0 <= v2 <= 300 ->
       recognized g3 = true -> 0 <= v3 <= 300 ->
       recognized g = true -> 0 <= v <= 300 ->
       let st3 := fst (add_data g3 v3 (fst (add_data g2 v2
                    (fst (add_data g1 v1 initial_state))))) in
       Py.len (data st3) = 3
       /\ counter st3 = 4
       /\ data (fst (add_data g v (fst (reset_data st3))))
          = [ {| Deltagare := 1; Kon := g; Tid := Py.float_of_int v |} ].
Proof.
  repeat split.
  - rewrite !add_data_accepted by auto using recognized_nonempty. reflexivity.
  - rewrite !add_data_accepted by auto using recognized_nonempty. reflexivity.
  - rewrite reset_data_eq. cbn [fst].
    rewrite add_data_accepted by auto using recognized_nonempty. reflexivity.
Qed.

Lemma reset_data_clears_witness :
  data (fst (add_data "Kvinna" 70
         (fst (reset_data (fst (add_data "Man" 30 (fst (add_data "Kvinna" 20
            (fst (add_data "Man" 10 initial_state))))))))))
  = [ {| Deltagare := 1; Kon := "Kvinna"; Tid := 70%float |} ].
Proof.
  destruct (reset_data_clears initial_state) as (_ & _ & _ & H).
  destruct (H "Man" 10 "Kvinna" 20 "Man" 30 "Kvinna" 70) as (_ & _ & Hd);
    [ reflexivity | lia | reflexivity | lia | reflexivity | lia
    | reflexivity | lia | exact Hd ].
Defined.

(** * The NumPy reductions *)

Module NpFacts.
Import Float64.
Local Open Scope float_scope.

Lemma len_nonneg {A : Type} (xs : list A) : (0 <= Py.len xs)%Z.
Proof. unfold Py.len. lia. Qed.

Lemma len_zero_iff {A : Type} (xs : list A) : Py.len xs = 0%Z <-> xs = [].
Proof.
  unfold Py.len. destruct xs; cbn [List.length]; split; intro H;
    try reflexivity; try discriminate; lia.
Qed.

Lemma len_pos {A : Type} (xs : list A) : xs <> [] -> (1 <= Py.len xs)%Z.
Proof. destruct xs; [congruence | unfold Py.len; cbn [List.length]; lia]. Qed.

Lemma len_one_inv {A : Type} (xs : list A) :
  Py.len xs = 1%Z -> exists x, xs = [x].
Proof.
  unfold Py.len. destruct xs as [|x [|y xs]]; cbn [List.length]; intro H;
    try lia. exists x. reflexivity.
Qed.


Lemma squares_of_deviations m a :
  map (fun v => v * v) (map (fun v => v - m) a)
  = map (fun x => (x - m) * (x - m)) a.
Proof. apply map_map. Qed.

(** With [ddof=1], [var] is the sample variance (divisor [n - 1]). *)
Lemma var_ddof1_spec a : a <> [] -> Np.var 1 a = Spec.sample_variance a.
Proof.
  intro Ha. unfold Np.var, Spec.sample_variance, Spec.squared_deviations,
    Spec.arithmetic_mean.
  rewrite squares_of_deviations, Z.max_l by (pose proof (len_pos a Ha); lia).
  reflexivity.
Qed.

(** With the default [ddof=0], [std] is the population standard deviation
    (divisor [n]). *)
Lemma std_ddof0_spec a : Np.std 0 a = Spec.population_standard_deviation a.
Proof.
  unfold Np.std, Np.var, Spec.population_standard_deviation,
    Spec.squared_deviations, Spec.arithmetic_mean.
  rewrite squares_of_deviations, Z.sub_0_r, Z.max_l by apply len_nonneg.
  reflexivity.
Qed.

(** The squared deviation of the one element of a singleton array from its
    mean: a zero when the element is finite, not a number otherwise. *)
Lemma singleton_deviation x :
  let m := (0 + x) / 1 in
  (is_finite x = true /\ (x - m) * (x - m) = 0)
  \/ (is_finite x = false /\ (x - m) * (x - m) = nan).
Proof.
  cbv zeta. rewrite is_finite_spec.
  destruct (Prim2SF x) as [s|s| |s m e] eqn:E.
  - apply SF_zero_inv in E. subst x. left. destruct s; split; reflexivity.
  - apply SF_infinity_inv in E. subst x. right. destruct s; split; reflexivity.
  - apply SF_nan_inv in E. subst x. right. split; reflexivity.
  - left. split; [reflexivity|].
    rewrite zero_add by (intros ->; discriminate E).
    change 1 with one. rewrite div_one.
    rewrite sub_diag by (rewrite is_finite_spec, E; reflexivity).
    reflexivity.
Qed.

(** The place of the cut lies strictly inside the array. *)
Lemma cut_bounds (n : nat) :
  (128 < n)%nat -> (1 <= n / 2 - (n / 2) mod 8 < n)%nat.
Proof.
  intro H.
  pose proof (Nat.Div0.div_mod n 2).
  pose proof (Nat.mod_upper_bound n 2 ltac:(discriminate)).
  pose proof (Nat.Div0.div_mod (n / 2) 8).
  pose proof (Nat.mod_upper_bound (n / 2) 8 ltac:(discriminate)).
  lia.
Qed.

(** The bound on the number of cuts is never reached: any bound that is at
    least the length gives the same sum. *)
Lemma pairwise_sum_rec_enough (d1 d2 : nat) (a : list float) :
  (List.length a <= d1)%nat -> (List.length a <= d2)%nat ->
  Np.pairwise_sum_rec d1 a = Np.pairwise_sum_rec d2 a.
Proof.
  revert d2 a. induction d1 as [|d1 IH]; intros d2 a H1 H2.
  - destruct a; [| cbn [List.length] in H1; lia]. destruct d2; reflexivity.
  - destruct d2 as [|d2].
    + destruct a; [reflexivity | cbn [List.length] in H2; lia].
    + cbn [Np.pairwise_sum_rec].
      destruct (List.length a <? 8)%nat; [reflexivity |].
      destruct (Nat.ltb_spec 128 (List.length a)) as [Hbig | _]; [| reflexivity].
      set (n := List.length a) in *.
      pose proof (cut_bounds n Hbig) as Hn2.
      rewrite (IH d2 (firstn _ a)), (IH d2 (skipn _ a));
        try reflexivity; rewrite ?length_firstn, ?length_skipn; fold n; lia.
Qed.

(** The equation of [pairwise_sum] for an array of more than 128 elements. *)
Lemma pairwise_sum_cut (a : list float) :
  (128 < List.length a)%nat ->
  let n2 := (List.length a / 2 - (List.length a / 2) mod 8)%nat in
  Np.pairwise_sum a = Np.pairwise_sum (firstn n2 a) + Np.pairwise_sum (skipn n2 a).
Proof.
  intro Hbig. cbv zeta. unfold Np.pairwise_sum at 1.
  destruct (List.length a) as [|n] eqn:En; [lia |].
  cbn [Np.pairwise_sum_rec]. rewrite En.
  destruct (Nat.ltb_spec (S n) 8) as [? | _]; [lia |].
  destruct (Nat.ltb_spec 128 (S n)) as [_ | ?]; [| lia].
  pose proof (cut_bounds (S n) Hbig) as Hn2.
  unfold Np.pairwise_sum.
  f_equal; apply pairwise_sum_rec_enough;
    rewrite ?length_firstn, ?length_skipn, ?En; lia.
Qed.

(** The sum of a single element. *)
Lemma sum_singleton x : Np.sum [x] = 0 + x.
Proof.
  unfold Np.sum, Np.pairwise_sum. cbn [List.length Np.pairwise_sum_rec Nat.ltb Nat.leb fold_left].
  rewrite neg_zero_add. reflexivity.
Qed.

(** The population standard deviation of a single finite value is zero. *)
Lemma std_ddof0_singleton x : is_finite x = true -> Np.std 0 [x] = 0.
Proof.
  intro Hx. unfold Np.std, Np.var. change (Py.len [x]) with 1%Z.
  change (Py.float_of_int (Z.max (1 - 0) 0)) with 1.
  change (Py.float_of_int 1) with 1.
  cbn [map]. rewrite !sum_singleton.
  destruct (singleton_deviation x) as [[_ ->] | [Hf _]];
    [reflexivity | congruence].
Qed.

(** SciPy's variance with [ddof=1] of a single value is not a number: the
    second moment is a zero or not a number, and the factor is [1 / 0]. *)
Lemma scipy_var_singleton x : Sp.var 1 [x] = nan.
Proof.
  unfold Sp.var, Sp.moment2, Np.mean. change (Py.len [x]) with 1%Z.
  cbn [Z.eqb map]. change (Py.len [_]) with 1%Z.
  change (Py.float_of_int (1 - 1)) with 0.
  change (Py.float_of_int 1) with 1.
  rewrite !sum_singleton.
  destruct (singleton_deviation x) as [[_ ->] | [_ ->]]; reflexivity.
Qed.


End NpFacts.

(** * The analysis routine *)

Section AnalysisFacts.

Import Float64 NpFacts.
Variable stdtr : float -> float -> float.
Local Open Scope float_scope.

Lemma set_Tid_id df : set_Tid df (pd_to_numeric (map Tid df)) = df.
Proof.
  unfold pd_to_numeric. induction df as [|[d k t] df IH]; cbn; [reflexivity|].
  rewrite IH. reflexivity.
Qed.

(** What [ttest_ind] computes on two non-empty samples. *)
Lemma ttest_ind_nonempty a b :
  a <> [] -> b <> [] ->
  let n1 := Py.len a in
  let n2 := Py.len b in
  let t := Spec.welch_t (Np.mean a) (Np.mean b) (Sp.var 1 a) n1 (Sp.var 1 b) n2 in
  let df := Spec.welch_satterthwaite_df (Sp.var 1 a) n1 (Sp.var 1 b) n2 in
  ttest_ind stdtr a b
  = (t, stdtr (if is_nan df then 1 else df) (- abs t) * 2).
Proof.
  intros Ha Hb. cbv zeta. unfold ttest_ind.
  destruct (len_zero_iff a) as [_ ?], (len_zero_iff b) as [_ ?].
  destruct (Z.eqb_spec (Py.len a) 0) as [E|_];
    [apply len_zero_iff in E; contradiction|].
  destruct (Z.eqb_spec (Py.len b) 0) as [E|_];
    [apply len_zero_iff in E; contradiction|].
  reflexivity.
Qed.

(** The two outcomes of [perform_ttest]. *)
Lemma perform_ttest_cases df :
  let male_data := values_where "Man" df in
  let female_data := values_where "Kvinna" df in
  ((Py.len df < 2 \/ Py.len male_data = 0 \/ Py.len female_data = 0)%Z
   /\ fst (perform_ttest stdtr df) = (None, None, None, None)
   /\ exists body, snd (perform_ttest stdtr df) = [st_warning body])
  \/
  ((2 <= Py.len df)%Z /\ male_data <> [] /\ female_data <> []
   /\ perform_ttest stdtr df
      = ((Some (fst (ttest_ind stdtr male_data female_data)),
          Some (snd (ttest_ind stdtr male_data female_data)),
          Some [ ("Man", {| Medelvarde := Np.mean male_data;
                            Standardavvikelse := Np.std 0 male_data;
                            Antal := Py.len male_data |});
                 ("Kvinna", {| Medelvarde := Np.mean female_data;
                               Standardavvikelse := Np.std 0 female_data;
                               Antal := Py.len female_data |}) ],
          Some [ ("Man", male_data); ("Kvinna", female_data) ]),
         [])).
Proof.
  cbv zeta. unfold perform_ttest. rewrite set_Tid_id.
  destruct (Z.ltb_spec (Py.len df) 2) as [Hlt | Hge].
  { left. split; [tauto | split; [reflexivity | eexists; reflexivity]]. }
  destruct (Z.eqb_spec (Py.len (values_where "Man" df)) 0) as [Hm | Hm].
  { left. split; [tauto | split; [reflexivity | eexists; reflexivity]]. }
  destruct (Z.eqb_spec (Py.len (values_where "Kvinna" df)) 0) as [Hf | Hf].
  { left. split; [tauto | split; [reflexivity | eexists; reflexivity]]. }
  right. cbn [orb].
  destruct (ttest_ind stdtr (values_where "Man" df) (values_where "Kvinna" df))
    as [t_stat p_val].
  repeat split; try assumption.
  - intro E. apply Hm. rewrite E. reflexivity.
  - intro E. apply Hf. rewrite E. reflexivity.
Qed.

(** A successful call, read backwards. *)
Lemma perform_ttest_success df t p stats raw :
  fst (perform_ttest stdtr df) = (Some t, Some p, Some stats, Some raw) ->
  let male_data := values_where "Man" df in
  let female_data := values_where "Kvinna" df in
  (2 <= Py.len df)%Z /\ male_data <> [] /\ female_data <> []
  /\ (t, p) = ttest_ind stdtr male_data female_data
  /\ stats = [ ("Man", {| Medelvarde := Np.mean male_data;
                          Standardavvikelse := Np.std 0 male_data;
                          Antal := Py.len male_data |});
               ("Kvinna", {| Medelvarde := Np.mean female_data;
                             Standardavvikelse := Np.std 0 female_data;
                             Antal := Py.len female_data |}) ]
  /\ raw = [ ("Man", male_data); ("Kvinna", female_data) ].
Proof.
  intro H. cbv zeta.
  destruct (perform_ttest_cases df) as [(_ & E & _) | (Hn & Hm & Hf & E)].
  - rewrite E in H. discriminate.
  - rewrite E in H. cbn [fst] in H. injection H as <- <- <- <-.
    repeat split; try assumption.
    destruct (ttest_ind stdtr _ _); reflexivity.
Qed.

End AnalysisFacts.

(** * The claims about the group comparison *)

(** C1, as the code has it: for every group with at least 2 members, the
    standard deviation reported in the per-group statistics equals the
    population standard deviation (divisor n, that is ddof=0) of that group's
    values; it is what NumPy's [std] computes by default. *)
Theorem reported_deviation_is_population
    (stdtr : float -> float -> float) (df : DataFrame)
    (t p : float) (stats : dict group_stats) (raw : dict (list float))
    (label : string) (g : group_stats) :
  fst (perform_ttest stdtr df) = (Some t, Some p, Some stats, Some raw) ->
  dict_get label stats = Some g ->
  2 <= Antal g ->
  Antal g = Py.len (values_where label df)
  /\ Standardavvikelse g
     = Spec.population_standard_deviation (values_where label df).
Proof.
  intros H Hg _.
  apply perform_ttest_success in H. cbv zeta in H.
  destruct H as (_ & _ & _ & _ & -> & _).
  cbn [dict_get] in Hg.
  destruct (String.eqb_spec "Man" label) as [<- | _].
  { injection Hg as <-. cbn [Antal Standardavvikelse].
    split; [reflexivity | apply NpFacts.std_ddof0_spec]. }
  destruct (String.eqb_spec "Kvinna" label) as [<- | _]; [|discriminate].
  injection Hg as <-. cbn [Antal Standardavvikelse].
  split; [reflexivity | apply NpFacts.std_ddof0_spec].
Qed.

Lemma reported_deviation_is_population_witness :
  exists g,
    dict_get "Kvinna" [ ("Man", {| Medelvarde := 47.5; Standardavvikelse := 2.5;
                                   Antal := 2 |});
                        ("Kvinna", {| Medelvarde := 85; Standardavvikelse := 5;
                                      Antal := 2 |}) ] = Some g
    /\ 2 <= Antal g
    /\ Standardavvikelse g
       = Spec.population_standard_deviation (values_where "Kvinna" scenario_A).
Proof.
  eexists. split; [reflexivity | split; [cbn; lia |]].
  refine (proj2 (reported_deviation_is_population step_cdf scenario_A
                   _ _ _ _ "Kvinna" _ _ _ _)).
  - vm_compute. reflexivity.
  - reflexivity.
  - cbn. lia.
Defined.

(** C1 as stated fails: for the two values 45 and 50 of the first group of
    Scenario A the sample standard deviation (divisor n - 1) is about 3.54,
    and the analysis reports 2.5. *)
Lemma reported_deviation_not_sample :
  Spec.sample_standard_deviation (values_where "Man" scenario_A) = sqrt 12.5
  /\ (3.5 <? sqrt 12.5)%float = true
  /\ forall stdtr, exists t p stats raw g,
       fst (perform_ttest stdtr scenario_A) = (Some t, Some p, Some stats, Some raw)
       /\ dict_get "Man" stats = Some g
       /\ Antal g = 2
       /\ Standardavvikelse g = 2.5%float
       /\ (Standardavvikelse g
           =? Spec.sample_standard_deviation (values_where "Man" scenario_A))%float
          = false.
Proof.
  split; [vm_compute; reflexivity |]. split; [reflexivity |].
  intro stdtr. do 5 eexists. split; [vm_compute; reflexivity |].
  split; [reflexivity |]. repeat split.
Qed.




(** C7: the analysis fails, showing a warning and returning nothing, exactly
    when there are fewer than two observations in total or one of the two
    recognized groups has none; in every other case it returns a result. *)
Theorem perform_ttest_fails_iff (stdtr : float -> float -> float) (df : DataFrame) :
  let fails :=
    fst (perform_ttest stdtr df) = (None, None, None, None)
    /\ exists body, snd (perform_ttest stdtr df) = [st_warning body] in
  let returns :=
    exists t p stats raw,
      perform_ttest stdtr df = ((Some t, Some p, Some stats, Some raw), []) in
  (fails <->
     Py.len df < 2
     \/ Py.len (values_where "Man" df) = 0
     \/ Py.len (values_where "Kvinna" df) = 0)
  /\ (fails \/ returns).
Proof.
  cbv zeta.
  destruct (perform_ttest_cases stdtr df)
    as [(Hc & E & W) | (Hn & Hm & Hf & E)]; cbv zeta in *.
  - split; [tauto | left; tauto].
  - split; [| right; rewrite E; do 4 eexists; reflexivity].
    split.
    + intros [F _]. rewrite E in F. discriminate.
    + rewrite !NpFacts.len_zero_iff. intros [H | [H | H]]; [lia | | ]; contradiction.
Qed.

(** ** Exchanging the two labels *)

Section Symmetry.

Import Float64 NpFacts.
Variable stdtr : float -> float -> float.
Local Open Scope float_scope.

Lemma swap_label_Man k : (swap_label k =? "Man")%string = (k =? "Kvinna")%string.
Proof.
  unfold swap_label.
  destruct (String.eqb_spec k "Man") as [-> | Hm]; [reflexivity |].
  destruct (String.eqb_spec k "Kvinna") as [-> | Hk]; [reflexivity |].
  apply String.eqb_neq, Hm.
Qed.

Lemma swap_label_Kvinna k : (swap_label k =? "Kvinna")%string = (k =? "Man")%string.
Proof.
  unfold swap_label.
  destruct (String.eqb_spec k "Man") as [-> | Hm]; [reflexivity |].
  destruct (String.eqb_spec k "Kvinna") as [-> | Hk]; [reflexivity |].
  apply String.eqb_neq, Hk.
Qed.

(** After the exchange each group holds the other's values, in order. *)
Lemma values_where_swap_Man df :
  values_where "Man" (swap_labels df) = values_where "Kvinna" df.
Proof.
  unfold values_where, swap_labels.
  induction df as [|r df IH]; [reflexivity |].
  cbn [map filter Kon]. rewrite swap_label_Man.
  destruct (Kon r =? "Kvinna")%string; cbn [map Tid]; rewrite IH; reflexivity.
Qed.

Lemma values_where_swap_Kvinna df :
  values_where "Kvinna" (swap_labels df) = values_where "Man" df.
Proof.
  unfold values_where, swap_labels.
  induction df as [|r df IH]; [reflexivity |].
  cbn [map filter Kon]. rewrite swap_label_Kvinna.
  destruct (Kon r =? "Man")%string; cbn [map Tid]; rewrite IH; reflexivity.
Qed.

Lemma len_swap_labels df : Py.len (swap_labels df) = Py.len df.
Proof. unfold Py.len, swap_labels. rewrite length_map. reflexivity. Qed.

Lemma welch_satterthwaite_df_sym v1 n1 v2 n2 :
  Spec.welch_satterthwaite_df v2 n2 v1 n1 = Spec.welch_satterthwaite_df v1 n1 v2 n2.
Proof.
  unfold Spec.welch_satterthwaite_df. cbv zeta.
  rewrite (add_comm (v2 / Py.float_of_int n2)).
  rewrite (add_comm (v2 / Py.float_of_int n2 * (v2 / Py.float_of_int n2)
                     / Py.float_of_int (n2 - 1))).
  reflexivity.
Qed.

(** Welch's statistic with the samples exchanged: the negation, or the same
    zero or not-a-number when the two means coincide. *)
Lemma welch_t_swap m1 m2 v1 n1 v2 n2 :
  let t := Spec.welch_t m1 m2 v1 n1 v2 n2 in
  let t' := Spec.welch_t m2 m1 v2 n2 v1 n1 in
  abs t' = abs t /\ negated t t'.
Proof.
  cbv zeta. unfold Spec.welch_t, negated.
  rewrite (add_comm (v2 / Py.float_of_int n2)).
  set (c := sqrt (v1 / Py.float_of_int n1 + v2 / Py.float_of_int n2)).
  destruct (sub_swap m1 m2) as [-> | [-> ->]].
  - rewrite div_opp_l. split; [apply abs_opp |].
    destruct (is_nan ((m1 - m2) / c)) eqn:N.
    + left. split; [reflexivity |].
      apply is_nan_true_iff in N. rewrite N. reflexivity.
    + right. apply eqb_refl.
      destruct (is_nan (- ((m1 - m2) / c))) eqn:N'; [| reflexivity].
      apply is_nan_true_iff in N'.
      assert (E : (m1 - m2) / c = nan).
      { apply Prim2SF_inj. apply (f_equal Prim2SF) in N'.
        rewrite opp_spec in N'.
        destruct (Prim2SF ((m1 - m2) / c)); try discriminate; reflexivity. }
      rewrite E in N. discriminate.
  - split; [reflexivity |].
    destruct (zero_div_cases c) as [-> | [-> | ->]];
      [right | right | left; split]; reflexivity.
Qed.

Lemma ttest_ind_swap a b :
  a <> [] -> b <> [] ->
  snd (ttest_ind stdtr b a) = snd (ttest_ind stdtr a b)
  /\ negated (fst (ttest_ind stdtr a b)) (fst (ttest_ind stdtr b a)).
Proof.
  intros Ha Hb.
  rewrite (ttest_ind_nonempty stdtr a b Ha Hb), (ttest_ind_nonempty stdtr b a Hb Ha).
  cbv zeta. cbn [fst snd].
  rewrite (welch_satterthwaite_df_sym (Sp.var 1 a) (Py.len a)).
  destruct (welch_t_swap (Np.mean a) (Np.mean b) (Sp.var 1 a) (Py.len a)
              (Sp.var 1 b) (Py.len b)) as [Habs Hneg].
  cbv zeta in Habs, Hneg. rewrite Habs. split; [reflexivity | exact Hneg].
Qed.

End Symmetry.

(** C8: whenever the analysis succeeds, it also succeeds after the two group
    labels are exchanged (so that each group holds the other's values), the
    statistic is then negated and the p-value is the same. *)
Theorem swap_labels_negates
    (stdtr : float -> float -> float) (df : DataFrame)
    (t p : float) (stats : dict group_stats) (raw : dict (list float)) :
  fst (perform_ttest stdtr df) = (Some t, Some p, Some stats, Some raw) ->
  exists t' stats' raw',
    fst (perform_ttest stdtr (swap_labels df))
    = (Some t', Some p, Some stats', Some raw')
    /\ negated t t'
    /\ raw' = [ ("Man", values_where "Kvinna" df);
                ("Kvinna", values_where "Man" df) ].
Proof.
  intro H. apply perform_ttest_success in H. cbv zeta in H.
  destruct H as (Hn & Ha & Hb & E & _).
  destruct (perform_ttest_cases stdtr (swap_labels df))
    as [(Hc & _) | (_ & _ & _ & E')]; cbv zeta in *.
  - exfalso. rewrite len_swap_labels, values_where_swap_Man,
      values_where_swap_Kvinna, !NpFacts.len_zero_iff in Hc.
    destruct Hc as [Hc | [Hc | Hc]]; [lia | contradiction | contradiction].
  - rewrite E'. rewrite values_where_swap_Man, values_where_swap_Kvinna.
    destruct (ttest_ind_swap stdtr _ _ Ha Hb) as [Hp Ht].
    rewrite <- E in Hp, Ht. cbn [fst snd] in Hp, Ht.
    do 3 eexists. cbn [fst]. rewrite Hp.
    split; [reflexivity | split; [exact Ht | reflexivity]].
Qed.

Lemma swap_labels_negates_witness :
  exists t t' p stats stats' raw raw',
    fst (perform_ttest step_cdf scenario_A) = (Some t, Some p, Some stats, Some raw)
    /\ fst (perform_ttest step_cdf (swap_labels scenario_A))
       = (Some t', Some p, Some stats', Some raw')
    /\ negated t t'.
Proof.
  assert (H : fst (perform_ttest step_cdf scenario_A)
              = (Some (Spec.welch_t 47.5 85 12.5 2 50 2), Some 0%float,
                 Some [ ("Man", {| Medelvarde := 47.5; Standardavvikelse := 2.5;
                                   Antal := 2 |});
                        ("Kvinna", {| Medelvarde := 85; Standardavvikelse := 5;
                                      Antal := 2 |}) ],
                 Some [ ("Man", [45; 50]); ("Kvinna", [80; 90]) ])%float)
    by (vm_compute; reflexivity).
  destruct (swap_labels_negates step_cdf scenario_A _ _ _ _ H)
    as (t' & stats' & raw' & E & Hneg & _).
  do 7 eexists. split; [exact H | split; [exact E | exact Hneg]].
Defined.

(** ** Scenario A and singleton groups *)

Lemma step_cdf_propagates_nan : propagates_nan step_cdf.
Proof. intro df. reflexivity. Qed.

Lemma step_cdf_yields_probabilities : yields_probabilities step_cdf.
Proof.
  intros df t Hdf Ht. unfold step_cdf. rewrite Ht, Hdf. cbn [orb negb].
  destruct (t <? 0)%float; split; reflexivity.
Qed.

(** C9: after the four observations (Man, 45), (Man, 50), (Kvinna, 80) and
    (Kvinna, 90) were added to an empty store, the analysis succeeds with the
    per-group means 47.5 and 85, the per-group counts 2 and 2, and a finite
    statistic and a finite p-value. *)
Theorem scenario_A_result (stdtr : float -> float -> float) :
  yields_probabilities stdtr ->
  scenario_A = [ {| Deltagare := 1; Kon := "Man"; Tid := 45 |};
                 {| Deltagare := 2; Kon := "Man"; Tid := 50 |};
                 {| Deltagare := 3; Kon := "Kvinna"; Tid := 80 |};
                 {| Deltagare := 4; Kon := "Kvinna"; Tid := 90 |} ]%float
  /\ exists t p stats raw man kvinna,
       perform_ttest stdtr scenario_A = ((Some t, Some p, Some stats, Some raw), [])
       /\ dict_get "Man" stats = Some man
       /\ dict_get "Kvinna" stats = Some kvinna
       /\ Medelvarde man = 47.5%float /\ Medelvarde kvinna = 85%float
       /\ Antal man = 2 /\ Antal kvinna = 2
       /\ is_finite t = true /\ is_finite p = true.
Proof.
  intro Hcdf. split; [reflexivity |].
  do 6 eexists. split; [vm_compute; reflexivity |].
  split; [reflexivity |]. split; [reflexivity |].
  repeat (split; [reflexivity |]).
  apply Float64.mul_two_finite; apply Hcdf; reflexivity.
Qed.

Lemma scenario_A_result_witness :
  exists t p stats raw,
    perform_ttest step_cdf scenario_A = ((Some t, Some p, Some stats, Some raw), [])
    /\ is_finite t = true /\ is_finite p = true.
Proof.
  destruct (scenario_A_result step_cdf step_cdf_yields_probabilities)
    as (_ & t & p & stats & raw & _ & _ & E & _ & _ & _ & _ & _ & _ & Ht & Hp).
  exists t, p, stats, raw. split; [exact E | split; [exact Ht | exact Hp]].
Defined.

Section Singleton.

Import Float64 NpFacts.
Variable stdtr : float -> float -> float.
Hypothesis stdtr_nan : propagates_nan stdtr.
Local Open Scope float_scope.

(** Welch's statistic is not a number as soon as one of the variances is. *)
Lemma welch_t_nan_l m1 m2 n1 v2 n2 : Spec.welch_t m1 m2 nan n1 v2 n2 = nan.
Proof.
  unfold Spec.welch_t. rewrite div_nan_l, add_nan_l.
  change (sqrt nan) with nan. apply div_nan_r.
Qed.

Lemma welch_t_nan_r m1 m2 v1 n1 n2 : Spec.welch_t m1 m2 v1 n1 nan n2 = nan.
Proof.
  unfold Spec.welch_t. rewrite div_nan_l, add_nan_r.
  change (sqrt nan) with nan. apply div_nan_r.
Qed.

Lemma p_value_of_nan df : stdtr df (- abs nan) * 2 = nan.
Proof. change (- abs nan) with nan. rewrite stdtr_nan. reflexivity. Qed.

(** With a single value in one of the two samples, [ttest_ind] returns
    not-a-number twice. *)
Lemma ttest_ind_singleton a b :
  a <> [] -> b <> [] -> Py.len a = 1%Z \/ Py.len b = 1%Z ->
  ttest_ind stdtr a b = (nan, nan).
Proof.
  intros Ha Hb H1. rewrite (ttest_ind_nonempty stdtr a b Ha Hb). cbv zeta.
  assert (Ht : Spec.welch_t (Np.mean a) (Np.mean b) (Sp.var 1 a) (Py.len a)
                 (Sp.var 1 b) (Py.len b) = nan).
  { destruct H1 as [H1 | H1]; apply len_one_inv in H1; destruct H1 as [x ->];
      rewrite scipy_var_singleton; [apply welch_t_nan_l | apply welch_t_nan_r]. }
  rewrite Ht, p_value_of_nan. reflexivity.
Qed.

(** The values of a group are among the measurements of the data frame. *)
Lemma values_where_in_range label df x :
  Forall (fun r => in_range (Tid r) = true) df ->
  In x (values_where label df) -> in_range x = true.
Proof.
  intros Hall Hin. unfold values_where in Hin.
  apply in_map_iff in Hin. destruct Hin as (r & <- & Hr).
  apply filter_In in Hr. destruct Hr as [Hr _].
  rewrite Forall_forall in Hall. apply Hall, Hr.
Qed.

End Singleton.

(** C10: for every sequence of observations (with measurements between 0 and
    300) that has at least two members, both groups non-empty and exactly
    one member in some group, the analysis does not fail: it returns a
    result in which the standard deviation reported for that group is 0.0
    and the statistic and the p-value are not a number. *)
Theorem singleton_group_gives_nan
    (stdtr : float -> float -> float) (df : DataFrame) (label : string) :
  propagates_nan stdtr ->
  Forall (fun r => in_range (Tid r) = true) df ->
  2 <= Py.len df ->
  values_where "Man" df <> [] ->
  values_where "Kvinna" df <> [] ->
  recognized label = true ->
  Py.len (values_where label df) = 1 ->
  exists t p stats raw g,
    perform_ttest stdtr df = ((Some t, Some p, Some stats, Some raw), [])
    /\ dict_get label stats = Some g
    /\ Antal g = 1
    /\ Standardavvikelse g = 0%float
    /\ is_nan t = true /\ is_nan p = true.
Proof.
  intros Hnan Hall Hn Ha Hb Hlabel Hone.
  destruct (perform_ttest_cases stdtr df)
    as [(Hc & _) | (_ & _ & _ & E)]; cbv zeta in *.
  { exfalso. rewrite !NpFacts.len_zero_iff in Hc.
    destruct Hc as [Hc | [Hc | Hc]]; [lia | contradiction | contradiction]. }
  assert (Hstd : Np.std 0 (values_where label df) = 0%float).
  { destruct (NpFacts.len_one_inv _ Hone) as [x Hx]. rewrite Hx.
    apply NpFacts.std_ddof0_singleton, Float64.in_range_finite.
    apply (values_where_in_range label df); [exact Hall |].
    rewrite Hx. left. reflexivity. }
  assert (Hl : label = "Man"%string \/ label = "Kvinna"%string).
  { unfold recognized in Hlabel. apply Bool.orb_true_iff in Hlabel.
    destruct Hlabel as [H | H]; apply String.eqb_eq in H; auto. }
  rewrite E.
  rewrite (ttest_ind_singleton stdtr Hnan _ _ Ha Hb)
    by (destruct Hl as [-> | ->]; auto).
  destruct Hl as [-> | ->]; do 5 eexists;
    (split; [reflexivity |]); (split; [reflexivity |]);
    cbn [Antal Standardavvikelse fst snd];
    (split; [exact Hone |]); (split; [exact Hstd |]); split; reflexivity.
Qed.

(** A store with one observation in the first group and two in the second. *)
Lemma singleton_group_gives_nan_witness :
  exists t p stats raw g,
    perform_ttest step_cdf
      [ {| Deltagare := 1; Kon := "Man"; Tid := 45 |};
        {| Deltagare := 2; Kon := "Kvinna"; Tid := 80 |};
        {| Deltagare := 3; Kon := "Kvinna"; Tid := 90 |} ]%float
    = ((Some t, Some p, Some stats, Some raw), [])
    /\ dict_get "Man" stats = Some g
    /\ Antal g = 1
    /\ Standardavvikelse g = 0%float
    /\ is_nan t = true /\ is_nan p = true.
Proof.
  apply (singleton_group_gives_nan step_cdf _ "Man" step_cdf_propagates_nan).
  - repeat constructor.
  - cbn. lia.
  - discriminate.
  - discriminate.
  - reflexivity.
  - reflexivity.
Defined.


(** * Further properties of the store *)

Lemma seq_Z_snoc n :
  map Z.of_nat (seq 1 (S n)) = map Z.of_nat (seq 1 n) ++ [Z.of_nat n + 1].
Proof.
  rewrite seq_S, map_app. cbn [map]. do 2 f_equal. lia.
Qed.

Lemma add_data_guarded gender time_sec st :
  (gender =? "")%string || (time_sec <? 0) || (time_sec >? 300) = true ->
  fst (add_data gender time_sec st) = st.
Proof. intro G. unfold add_data. rewrite G. reflexivity. Qed.

(** X1: in every store the callbacks can produce, the participant numbers
    are 1, 2, ..., n in the order of insertion, and the counter is n + 1:
    numbers are neither reused nor skipped, whatever inputs were rejected and
    however often the store was reset. *)
Theorem reachable_numbering (st : session_state) :
  reachable st ->
  map Deltagare (data st) = map Z.of_nat (seq 1 (List.length (data st)))
  /\ counter st = Py.len (data st) + 1.
Proof.
  induction 1 as [| gender time_sec st _ [IHd IHc] | st _ _].
  - split; reflexivity.
  - destruct ((gender =? "")%string || (time_sec <? 0) || (time_sec >? 300)) eqn:G.
    + rewrite add_data_guarded by exact G. split; assumption.
    + destruct (proj1 (add_data_guard gender time_sec) G) as [Hg Ht].
      rewrite add_data_accepted by assumption. cbn [fst data counter].
      unfold Py.len in *. rewrite length_app, map_app. cbn [List.length map Deltagare].
      rewrite Nat.add_1_r, seq_Z_snoc, IHd. split; [| lia].
      do 2 f_equal. lia.
  - rewrite reset_data_eq. split; reflexivity.
Qed.

Lemma reachable_numbering_witness :
  map Deltagare
    (data (fst (add_data "Kvinna" 80 (fst (add_data "Man" 1000
       (fst (add_data "Man" 45 (fst (reset_data
          (fst (add_data "Man" 10 initial_state))))))))))) = [1; 2]
  /\ counter (fst (add_data "Kvinna" 80 (fst (add_data "Man" 1000
       (fst (add_data "Man" 45 (fst (reset_data
          (fst (add_data "Man" 10 initial_state)))))))))) = 3.
Proof.
  apply (reachable_numbering
           (fst (add_data "Kvinna" 80 (fst (add_data "Man" 1000
              (fst (add_data "Man" 45 (fst (reset_data
                 (fst (add_data "Man" 10 initial_state)))))))))));
    repeat constructor.
Defined.

(** X2: every observation in a store the callbacks can produce has a
    non-empty group label and a measurement that is the float of an integer
    between 0 and 300, hence a value in the range from 0 to 300. *)
Theorem reachable_rows_valid (st : session_state) :
  reachable st ->
  Forall (fun r => (Kon r =? "")%string = false
                   /\ in_range (Tid r) = true
                   /\ exists z, 0 <= z <= 300 /\ Tid r = Py.float_of_int z)
    (data st).
Proof.
  induction 1 as [| gender time_sec st _ IH | st _ _].
  - constructor.
  - destruct ((gender =? "")%string || (time_sec <? 0) || (time_sec >? 300)) eqn:G.
    + rewrite add_data_guarded by exact G. exact IH.
    + destruct (proj1 (add_data_guard gender time_sec) G) as [Hg Ht].
      rewrite add_data_accepted by assumption. cbn [fst data].
      apply Forall_app. split; [exact IH |].
      constructor; [| constructor]. cbn [Kon Tid].
      split; [apply String.eqb_neq, Hg |].
      split; [apply float_of_int_in_range, Ht |].
      exists time_sec. split; [exact Ht | reflexivity].
  - rewrite reset_data_eq. constructor.
Qed.

Lemma reachable_rows_valid_witness :
  Forall (fun r => (Kon r =? "")%string = false
                   /\ in_range (Tid r) = true
                   /\ exists z, 0 <= z <= 300 /\ Tid r = Py.float_of_int z)
    scenario_A.
Proof.
  apply (reachable_rows_valid
           (fst (add_data "Kvinna" 90 (fst (add_data "Kvinna" 80
              (fst (add_data "Man" 50 (fst (add_data "Man" 45 initial_state)))))))));
    repeat constructor.
Defined.

(** * Further properties of the analysis *)

(** A row belongs to at most one of the two groups. *)
Lemma groups_partition df :
  Py.len (values_where "Man" df) + Py.len (values_where "Kvinna" df)
  = Py.len (filter (fun r => recognized (Kon r)) df).
Proof.
  unfold Py.len, values_where, recognized. rewrite !length_map.
  induction df as [|r df IH]; [reflexivity |].
  cbn [filter].
  destruct (String.eqb_spec (Kon r) "Man") as [E | _].
  - rewrite E. cbn [String.eqb Ascii.eqb Bool.eqb orb List.length]. lia.
  - destruct (Kon r =? "Kvinna")%string; cbn [orb List.length]; lia.
Qed.

Lemma groups_within df :
  Py.len (values_where "Man" df) + Py.len (values_where "Kvinna" df) <= Py.len df.
Proof.
  rewrite groups_partition. unfold Py.len.
  pose proof (filter_length_le (fun r => recognized (Kon r)) df). lia.
Qed.

(** X3: the four values the analysis returns depend only on the two groups'
    value sequences: participant numbers, observations under other labels
    and the way the two groups are interleaved have no influence. *)
Theorem groups_determine_result
    (stdtr : float -> float -> float) (df1 df2 : DataFrame) :
  values_where "Man" df1 = values_where "Man" df2 ->
  values_where "Kvinna" df1 = values_where "Kvinna" df2 ->
  fst (perform_ttest stdtr df1) = fst (perform_ttest stdtr df2).
Proof.
  intros Hm Hk.
  pose proof (groups_within df1) as W1. pose proof (groups_within df2) as W2.
  destruct (perform_ttest_cases stdtr df1) as [(C1 & E1 & _) | (_ & A1 & B1 & E1)],
           (perform_ttest_cases stdtr df2) as [(C2 & E2 & _) | (_ & A2 & B2 & E2)];
    cbv zeta in *.
  - congruence.
  - exfalso. rewrite Hm, Hk in *.
    apply NpFacts.len_pos in A2, B2.
    destruct C1 as [C1 | [C1 | C1]]; lia.
  - exfalso. rewrite <- Hm, <- Hk in *.
    apply NpFacts.len_pos in A1, B1.
    destruct C2 as [C2 | [C2 | C2]]; lia.
  - rewrite E1, E2, Hm, Hk. reflexivity.
Qed.

Lemma groups_determine_result_witness :
  fst (perform_ttest step_cdf scenario_A)
  = fst (perform_ttest step_cdf
           [ {| Deltagare := 7; Kon := "Kvinna"; Tid := 80 |};
             {| Deltagare := 7; Kon := "Man"; Tid := 45 |};
             {| Deltagare := 0; Kon := "Annat"; Tid := 12 |};
             {| Deltagare := 3; Kon := "Man"; Tid := 50 |};
             {| Deltagare := 9; Kon := "Kvinna"; Tid := 90 |} ]%float).
Proof.
  apply (groups_determine_result step_cdf); reflexivity.
Defined.

(** X4: in a successful analysis the two reported counts add up to the
    number of observations whose label is "Man" or "Kvinna"; observations
    under any other label are counted in neither group, so the sum never
    exceeds the number of observations. *)
Theorem counts_cover_recognized
    (stdtr : float -> float -> float) (df : DataFrame)
    (t p : float) (stats : dict group_stats) (raw : dict (list float)) :
  fst (perform_ttest stdtr df) = (Some t, Some p, Some stats, Some raw) ->
  exists man kvinna,
    dict_get "Man" stats = Some man /\ dict_get "Kvinna" stats = Some kvinna
    /\ 1 <= Antal man /\ 1 <= Antal kvinna
    /\ Antal man + Antal kvinna = Py.len (filter (fun r => recognized (Kon r)) df)
    /\ Antal man + Antal kvinna <= Py.len df.
Proof.
  intro H. apply perform_ttest_success in H. cbv zeta in H.
  destruct H as (_ & Ha & Hb & _ & -> & _).
  do 2 eexists. split; [reflexivity |]. split; [reflexivity |].
  cbn [Antal]. apply NpFacts.len_pos in Ha, Hb.
  split; [exact Ha |]. split; [exact Hb |].
  split; [apply groups_partition | apply groups_within].
Qed.

Lemma counts_cover_recognized_witness :
  exists man kvinna,
    dict_get "Man" [ ("Man", {| Medelvarde := 45; Standardavvikelse := 0; Antal := 1 |});
                     ("Kvinna", {| Medelvarde := 85; Standardavvikelse := 5; Antal := 2 |}) ]%float
    = Some man
    /\ dict_get "Kvinna" [ ("Man", {| Medelvarde := 45; Standardavvikelse := 0; Antal := 1 |});
                           ("Kvinna", {| Medelvarde := 85; Standardavvikelse := 5; Antal := 2 |}) ]%float
       = Some kvinna
    /\ Antal man + Antal kvinna = 3.
Proof.
  destruct (counts_cover_recognized step_cdf
              [ {| Deltagare := 1; Kon := "Kvinna"; Tid := 80 |};
                {| Deltagare := 2; Kon := "Annat"; Tid := 12 |};
                {| Deltagare := 3; Kon := "Man"; Tid := 45 |};
                {| Deltagare := 4; Kon := "Kvinna"; Tid := 90 |} ]%float
              nan nan
              [ ("Man", {| Medelvarde := 45; Standardavvikelse := 0; Antal := 1 |});
                ("Kvinna", {| Medelvarde := 85; Standardavvikelse := 5; Antal := 2 |}) ]%float
              [ ("Man", [45]); ("Kvinna", [80; 90]) ]%float)
    as (man & kvinna & Hm & Hk & _ & _ & Hsum & _).
  - vm_compute. reflexivity.
  - exists man, kvinna. split; [exact Hm |]. split; [exact Hk |].
    rewrite Hsum. reflexivity.
Defined.

(** ** Signs *)

Module Float64Sign.
Import Float64.

Lemma binary_round_aux_nonneg m e l :
  SFnonneg (binary_round_aux prec emax false m e l) = true.
Proof.
  unfold binary_round_aux.
  destruct (shr_fexp prec emax m e l) as [mrs' e'].
  destruct (shr_fexp prec emax _ e' loc_Exact) as [mrs'' e''].
  destruct (shr_m mrs''); try reflexivity.
  destruct (e'' <=? emax - prec); reflexivity.
Qed.

Lemma binary_round_nonneg m e :
  SFnonneg (binary_round prec emax false m e) = true.
Proof.
  unfold binary_round.
  destruct (shl_align m e _) as [mz ez]. apply binary_round_aux_nonneg.
Qed.

Lemma binary_normalize_nonneg n e :
  0 <= n -> SFnonneg (binary_normalize prec emax n e false) = true.
Proof.
  destruct n as [|p|p]; intro Hn; [reflexivity | apply binary_round_nonneg | lia].
Qed.

Lemma SFmul_self_nonneg x : SFnonneg (SF64mul x x) = true.
Proof.
  destruct x as [[]|[]| |[] m e]; try reflexivity; apply binary_round_aux_nonneg.
Qed.

Lemma SFadd_nonneg x y :
  SFnonneg x = true -> SFnonneg y = true -> SFnonneg (SF64add x y) = true.
Proof.
  destruct x as [[]|[]| |[] mx ex], y as [[]|[]| |[] my ey];
    try discriminate; try reflexivity.
  intros _ _. unfold SF64add, SFadd, cond_Zopp.
  apply binary_normalize_nonneg. std_Z. lia.
Qed.

Lemma SFdiv_nonneg x y :
  SFnonneg x = true -> SFnonneg y = true -> SFnonneg (SF64div x y) = true.
Proof.
  destruct x as [[]|[]| |[] mx ex], y as [[]|[]| |[] my ey];
    try discriminate; try reflexivity.
  intros _ _. unfold SF64div, SFdiv.
  destruct (SFdiv_core_binary prec emax (Z.pos mx) ex (Z.pos my) ey) as [[mz ez] lz].
  apply binary_round_aux_nonneg.
Qed.

Lemma SFsqrt_nonneg x : SFnonneg x = true -> SFnonneg (SF64sqrt x) = true.
Proof.
  destruct x as [[]|[]| |[] m e]; try discriminate; try reflexivity.
  intros _. unfold SF64sqrt, SFsqrt.
  destruct (SFsqrt_core_binary prec emax (Z.pos m) e) as [[mz ez] lz].
  apply binary_round_aux_nonneg.
Qed.

(** The float of a non-negative integer is not negative. *)
Lemma float_of_int_nonneg n :
  0 <= n -> SFnonneg (Prim2SF (Py.float_of_int n)) = true.
Proof.
  intro Hn. unfold Py.float_of_int.
  pose proof (binary_normalize_nonneg n 0 Hn) as Hr.
  destruct (binary_normalize prec emax n 0 false) as [[]|[]| |[] m e];
    try discriminate; try reflexivity.
  unfold SF2Prim. rewrite Z_ldexp_spec, of_uint63_spec.
  pose proof (Uint63.to_Z_bounded (Uint63.of_Z (Z.pos m))) as Hb.
  pose proof (binary_normalize_nonneg _ 0 (proj1 Hb)) as Hk.
  destruct (binary_normalize prec emax _ 0 false) as [[]|[]| |[] m' e'];
    try discriminate; try reflexivity.
  apply binary_round_nonneg.
Qed.

Local Open Scope float_scope.

Lemma nonneg_cases x :
  SFnonneg (Prim2SF x) = true -> is_nan x = true \/ (0 <=? x) = true.
Proof.
  intro H. rewrite leb_spec. change (Prim2SF 0) with (S754_zero false).
  destruct (Prim2SF x) as [[]|[]| |[] m e] eqn:E; try discriminate;
    try (right; reflexivity).
  left. apply is_nan_true_iff, SF_nan_inv, E.
Qed.

Lemma nonneg_weak x : SFnonneg x = true -> SFweak_nonneg x = true.
Proof. destruct x as [[]|[]| |[] m e]; intro H; reflexivity || discriminate. Qed.

Lemma SFadd_weak_nonneg x y :
  SFweak_nonneg x = true -> SFweak_nonneg y = true ->
  SFweak_nonneg (SF64add x y) = true.
Proof.
  destruct x as [[]|[]| |[] mx ex], y as [[]|[]| |[] my ey];
    try discriminate; try reflexivity.
  intros _ _. apply nonneg_weak. unfold SF64add, SFadd, cond_Zopp.
  apply binary_normalize_nonneg. std_Z. lia.
Qed.

(** Added to [0.0], a sum that may be [-0] is not negative. *)
Lemma SFadd_zero_weak y :
  SFweak_nonneg y = true -> SFnonneg (SF64add (S754_zero false) y) = true.
Proof. destruct y as [[]|[]| |[] m e]; intro H; reflexivity || discriminate. Qed.

Definition weak (v : float) : Prop := SFweak_nonneg (Prim2SF v) = true.

Lemma add_weak x y : weak x -> weak y -> weak (x + y).
Proof. unfold weak. rewrite add_spec. apply SFadd_weak_nonneg. Qed.

Lemma fold_weak a acc : weak acc -> Forall weak a -> weak (fold_left add a acc).
Proof.
  intros Hacc Ha. revert acc Hacc.
  induction Ha as [|v a Hv _ IH]; intros acc Hacc; [exact Hacc |].
  cbn [fold_left]. apply IH, add_weak; assumption.
Qed.

Ltac weak_step :=
  repeat match goal with
         | H : Forall weak (_ :: _) |- _ => inversion H; subst; clear H
         end;
  repeat first [ assumption | apply add_weak | apply fold_weak
               | constructor ].

Lemma unrolled_sum_weak (n : nat) : forall a r0 r1 r2 r3 r4 r5 r6 r7,
  (List.length a <= n)%nat ->
  weak r0 -> weak r1 -> weak r2 -> weak r3 ->
  weak r4 -> weak r5 -> weak r6 -> weak r7 ->
  Forall weak a ->
  weak (Np.unrolled_sum r0 r1 r2 r3 r4 r5 r6 r7 a).
Proof.
  induction n as [|n IH]; intros a r0 r1 r2 r3 r4 r5 r6 r7 Hn ? ? ? ? ? ? ? ? Ha.
  - destruct a; [| cbn [List.length] in Hn; lia].
    cbn [Np.unrolled_sum]. weak_step.
  - destruct a as [|a0 [|a1 [|a2 [|a3 [|a4 [|a5 [|a6 [|a7 rest]]]]]]]];
      cbn [Np.unrolled_sum];
      try (apply fold_weak; [weak_step | assumption]).
    cbn [List.length] in Hn.
    repeat match goal with
           | H : Forall weak (_ :: _) |- _ => inversion H; subst; clear H
           end.
    apply IH; try (apply add_weak; assumption); [lia | assumption].
Qed.

Lemma block_sum_weak a : Forall weak a -> weak (Np.block_sum a).
Proof.
  intro Ha. unfold Np.block_sum.
  destruct a as [|a0 [|a1 [|a2 [|a3 [|a4 [|a5 [|a6 [|a7 rest]]]]]]]];
    try (apply fold_weak; [reflexivity | assumption]).
  repeat match goal with
         | H : Forall weak (_ :: _) |- _ => inversion H; subst; clear H
         end.
  apply (unrolled_sum_weak (List.length rest)); auto.
Qed.

Lemma pairwise_sum_rec_weak depth : forall a,
  Forall weak a -> weak (Np.pairwise_sum_rec depth a).
Proof.
  induction depth as [|depth IH]; intros a Ha; cbn [Np.pairwise_sum_rec];
    destruct (List.length a <? 8)%nat;
    try (apply fold_weak; [reflexivity | assumption]);
    try (apply block_sum_weak; assumption).
  destruct (128 <? List.length a)%nat; [| apply block_sum_weak; assumption].
  set (n2 := (List.length a / 2 - (List.length a / 2) mod 8)%nat).
  rewrite <- (firstn_skipn n2 a) in Ha. apply Forall_app in Ha.
  destruct Ha as [H1 H2]. apply add_weak; apply IH; assumption.
Qed.

(** A sum of values that are not negative is not negative. *)
Lemma sum_nonneg a :
  Forall (fun v => SFnonneg (Prim2SF v) = true) a ->
  SFnonneg (Prim2SF (Np.sum a)) = true.
Proof.
  intro Ha. unfold Np.sum. rewrite add_spec.
  change (Prim2SF 0) with (S754_zero false). apply SFadd_zero_weak.
  apply pairwise_sum_rec_weak.
  eapply Forall_impl; [| exact Ha]. intros v Hv. apply nonneg_weak, Hv.
Qed.

(** [var] is a sum of squares over a count: never negative, for any [ddof]. *)
Lemma var_nonneg ddof a : SFnonneg (Prim2SF (Np.var ddof a)) = true.
Proof.
  unfold Np.var. rewrite div_spec. apply SFdiv_nonneg.
  - apply sum_nonneg.
    rewrite Forall_map. apply Forall_forall. intros v _.
    rewrite mul_spec. apply SFmul_self_nonneg.
  - apply float_of_int_nonneg. lia.
Qed.

Lemma std_nonneg ddof a : SFnonneg (Prim2SF (Np.std ddof a)) = true.
Proof. unfold Np.std. rewrite sqrt_spec. apply SFsqrt_nonneg, var_nonneg. Qed.

End Float64Sign.

(** X5: a standard deviation reported by a successful analysis is never
    negative: it is not a number or at least zero.  (It is the error bar of
    the bar chart.) *)
Theorem reported_deviation_nonneg
    (stdtr : float -> float -> float) (df : DataFrame)
    (t p : float) (stats : dict group_stats) (raw : dict (list float))
    (label : string) (g : group_stats) :
  fst (perform_ttest stdtr df) = (Some t, Some p, Some stats, Some raw) ->
  dict_get label stats = Some g ->
  is_nan (Standardavvikelse g) = true \/ (0 <=? Standardavvikelse g)%float = true.
Proof.
  intros H Hg. apply perform_ttest_success in H. cbv zeta in H.
  destruct H as (_ & _ & _ & _ & -> & _).
  cbn [dict_get] in Hg.
  destruct ("Man" =? label)%string.
  { injection Hg as <-. apply Float64Sign.nonneg_cases, Float64Sign.std_nonneg. }
  destruct ("Kvinna" =? label)%string; [| discriminate].
  injection Hg as <-. apply Float64Sign.nonneg_cases, Float64Sign.std_nonneg.
Qed.

Lemma reported_deviation_nonneg_witness :
  exists g,
    dict_get "Kvinna"
      [ ("Man", {| Medelvarde := 47.5; Standardavvikelse := 2.5; Antal := 2 |});
        ("Kvinna", {| Medelvarde := 85; Standardavvikelse := 5; Antal := 2 |}) ]%float
    = Some g
    /\ (is_nan (Standardavvikelse g) = true
        \/ (0 <=? Standardavvikelse g)%float = true).
Proof.
  eexists. split; [reflexivity |].
  apply (reported_deviation_nonneg step_cdf scenario_A
           (Spec.welch_t 47.5 85 12.5 2 50 2) 0%float
           [ ("Man", {| Medelvarde := 47.5; Standardavvikelse := 2.5; Antal := 2 |});
             ("Kvinna", {| Medelvarde := 85; Standardavvikelse := 5; Antal := 2 |}) ]%float
           [ ("Man", [45; 50]); ("Kvinna", [80; 90]) ]%float
           "Kvinna").
  - vm_compute. reflexivity.
  - reflexivity.
Defined.

(** * The charts *)

Section Charts.

Lemma combine_fst_snd {A B : Type} (rows : list (A * B)) :
  combine (map fst rows) (map snd rows) = rows.
Proof.
  induction rows as [|[a b] rows IH]; [reflexivity |].
  cbn [map combine fst snd]. rewrite IH. reflexivity.
Qed.

(** The rows the two loops of [create_boxplot] list. *)
Lemma boxplot_inner_loop (gender : string) (times : list float)
    (rows : list (string * float)) :
  fold_left
    (fun acc time =>
       let '(plot_data, labels) := acc in
       (plot_data ++ [time], labels ++ [gender]))
    times (map snd rows, map fst rows)
  = (map snd (rows ++ map (pair gender) times),
     map fst (rows ++ map (pair gender) times)).
Proof.
  revert rows. induction times as [|time times IH]; intro rows.
  - cbn [fold_left map]. rewrite app_nil_r. reflexivity.
  - cbn [fold_left map].
    change (map snd rows ++ [time]) with (map snd rows ++ map snd [(gender, time)]).
    change (map fst rows ++ [gender]) with (map fst rows ++ map fst [(gender, time)]).
    rewrite <- !map_app, IH, <- app_assoc. reflexivity.
Qed.

Lemma boxplot_outer_loop (data_dict : dict (list float))
    (rows : list (string * float)) :
  fold_left
    (fun acc item =>
       let '(gender, times) := item in
       fold_left
         (fun acc time =>
            let '(plot_data, labels) := acc in
            (plot_data ++ [time], labels ++ [gender]))
         times acc)
    data_dict (map snd rows, map fst rows)
  = (map snd (rows ++ flat_map (fun item => map (pair (fst item)) (snd item)) data_dict),
     map fst (rows ++ flat_map (fun item => map (pair (fst item)) (snd item)) data_dict)).
Proof.
  revert rows. induction data_dict as [|[gender times] d IH]; intro rows.
  - cbn [fold_left flat_map]. rewrite app_nil_r. reflexivity.
  - cbn [fold_left flat_map fst snd].
    rewrite boxplot_inner_loop, IH, <- app_assoc. reflexivity.
Qed.

Lemma create_boxplot_eq (data_dict : dict (list float)) :
  create_boxplot data_dict
  = Some (flat_map (fun item => map (pair (fst item)) (snd item)) data_dict).
Proof.
  unfold create_boxplot.
  pose proof (boxplot_outer_loop data_dict []) as E. cbn [map app] in E.
  rewrite E.
  unfold pd_DataFrame, Py.len. rewrite !length_map, Z.eqb_refl, combine_fst_snd.
  reflexivity.
Qed.

End Charts.

(** X6: for every dictionary of value sequences, [create_boxplot] builds its
    frame without an error (the two columns always have the same length),
    and the frame lists each group's values under the group's label, group
    after group, in the order of the sequences. *)
Theorem create_boxplot_frame (data_dict : dict (list float)) :
  exists frame,
    create_boxplot data_dict = Some frame
    /\ frame = flat_map (fun item => map (pair (fst item)) (snd item)) data_dict
    /\ map snd frame = flat_map snd data_dict
    /\ List.length frame = List.length (flat_map snd data_dict).
Proof.
  eexists. split; [apply create_boxplot_eq |]. split; [reflexivity |].
  assert (E : map snd (flat_map (fun item : string * list float =>
                                   map (pair (fst item)) (snd item)) data_dict)
              = flat_map snd data_dict).
  { induction data_dict as [|[g ts] d IH]; [reflexivity |].
    cbn [flat_map fst snd]. rewrite map_app, map_map, IH. cbn [snd].
    rewrite map_id. reflexivity. }
  split; [exact E |]. rewrite <- E, length_map. reflexivity.
Qed.

(** The points of the box plot, group after group. *)
Lemma grouped_rows_permutation df :
  Permutation
    (map (pair "Man") (values_where "Man" df)
     ++ map (pair "Kvinna") (values_where "Kvinna" df))
    (map (fun r => (Kon r, Tid r)) (filter (fun r => recognized (Kon r)) df)).
Proof.
  unfold values_where, recognized.
  induction df as [|r df IH]; [constructor |].
  cbn [filter].
  destruct (String.eqb_spec (Kon r) "Man") as [E | _].
  - assert (K : (Kon r =? "Kvinna")%string = false) by (rewrite E; reflexivity).
    rewrite K. cbn [orb map app]. rewrite E. constructor. exact IH.
  - destruct (String.eqb_spec (Kon r) "Kvinna") as [E | _]; cbn [orb map];
      [| exact IH].
    rewrite E. symmetry. apply Permutation_cons_app. symmetry. exact IH.
Qed.

(** X7: after a successful analysis the box plot gets exactly the
    observations whose label is "Man" or "Kvinna": its frame is a
    rearrangement of their (label, measurement) pairs, with the first group's
    points before the second group's. *)
Theorem boxplot_shows_recognized
    (stdtr : float -> float -> float) (df : DataFrame)
    (t p : float) (stats : dict group_stats) (raw : dict (list float)) :
  fst (perform_ttest stdtr df) = (Some t, Some p, Some stats, Some raw) ->
  create_boxplot raw
  = Some (map (pair "Man") (values_where "Man" df)
          ++ map (pair "Kvinna") (values_where "Kvinna" df))
  /\ Permutation
       (map (pair "Man") (values_where "Man" df)
        ++ map (pair "Kvinna") (values_where "Kvinna" df))
       (map (fun r => (Kon r, Tid r)) (filter (fun r => recognized (Kon r)) df)).
Proof.
  intro H. apply perform_ttest_success in H. cbv zeta in H.
  destruct H as (_ & _ & _ & _ & _ & ->).
  split; [| apply grouped_rows_permutation].
  rewrite create_boxplot_eq. cbn [flat_map fst snd]. rewrite app_nil_r.
  reflexivity.
Qed.

Lemma boxplot_shows_recognized_witness :
  create_boxplot [ ("Man", [45]); ("Kvinna", [80; 90]) ]%float
  = Some [ ("Man", 45); ("Kvinna", 80); ("Kvinna", 90) ]%float.
Proof.
  refine (proj1 (boxplot_shows_recognized step_cdf
                   [ {| Deltagare := 1; Kon := "Kvinna"; Tid := 80 |};
                     {| Deltagare := 2; Kon := "Annat"; Tid := 12 |};
                     {| Deltagare := 3; Kon := "Man"; Tid := 45 |};
                     {| Deltagare := 4; Kon := "Kvinna"; Tid := 90 |} ]%float
                   nan nan
                   [ ("Man", {| Medelvarde := 45; Standardavvikelse := 0; Antal := 1 |});
                     ("Kvinna", {| Medelvarde := 85; Standardavvikelse := 5; Antal := 2 |}) ]%float
                   [ ("Man", [45]); ("Kvinna", [80; 90]) ]%float _)).
  vm_compute. reflexivity.
Defined.

Section BarChart.

Variable d : dict group_stats.

(** In a dictionary whose keys are distinct, every entry is found under its
    key. *)
Lemma dict_get_entry (k : string) (v : group_stats) (entries : dict group_stats) :
  NoDup (map fst entries) -> In (k, v) entries -> dict_get k entries = Some v.
Proof.
  induction entries as [|[k' v'] rest IH]; intros Hnd Hin; [destruct Hin |].
  cbn [map fst] in Hnd. inversion Hnd as [|? ? Hk' Hrest]; subst.
  cbn [dict_get]. destruct Hin as [E | Hin].
  - injection E as -> ->. rewrite String.eqb_refl. reflexivity.
  - destruct (String.eqb_spec k' k) as [-> | _]; [| apply IH; assumption].
    exfalso. apply Hk'. apply (in_map fst) in Hin. exact Hin.
Qed.

Lemma lookup_each_entries {A : Type} (f : group_stats -> A) (entries : dict group_stats) :
  (forall k v, In (k, v) entries -> dict_get k d = Some v) ->
  lookup_each f d (map fst entries) = Some (map (fun kv => f (snd kv)) entries).
Proof.
  induction entries as [|[k v] rest IH]; intro H; [reflexivity |].
  cbn [map fst snd lookup_each].
  rewrite (H k v) by (left; reflexivity).
  rewrite IH by (intros k' v' Hin; apply H; right; exact Hin).
  reflexivity.
Qed.

Lemma zip_bars_entries (entries : dict group_stats) :
  zip_bars (map fst entries)
           (map (fun kv => Medelvarde (snd kv)) entries)
           (map (fun kv => Standardavvikelse (snd kv)) entries)
  = Some (map (fun kv => (fst kv, Medelvarde (snd kv), Standardavvikelse (snd kv)))
              entries).
Proof.
  induction entries as [|[k v] rest IH]; [reflexivity |].
  cbn [map fst snd zip_bars]. rewrite IH. reflexivity.
Qed.

Lemma existsb_negative_err (entries : dict group_stats) :
  existsb negative_err (map (fun kv => Standardavvikelse (snd kv)) entries)
  = existsb (fun kv => negative_err (Standardavvikelse (snd kv))) entries.
Proof.
  induction entries as [|kv rest IH]; [reflexivity |].
  cbn [map existsb]. rewrite IH. reflexivity.
Qed.

End BarChart.

(** What [create_barplot] does on a dictionary with distinct keys. *)
Lemma create_barplot_eq (stats_dict : dict group_stats) :
  NoDup (map fst stats_dict) ->
  create_barplot stats_dict
  = if existsb (fun kv => negative_err (Standardavvikelse (snd kv))) stats_dict
    then None
    else Some (map (fun kv =>
                      {| bar_label := fst kv;
                         bar_height := Medelvarde (snd kv);
                         bar_yerr := Standardavvikelse (snd kv);
                         bar_text_y := (Medelvarde (snd kv) + 5)%float |})
                   stats_dict).
Proof.
  intro Hnd. unfold create_barplot.
  rewrite !(lookup_each_entries stats_dict _ stats_dict)
    by (intros k v Hin; apply dict_get_entry; assumption).
  unfold ax_bar. rewrite existsb_negative_err.
  destruct (existsb _ stats_dict); [reflexivity |].
  rewrite zip_bars_entries, map_map. reflexivity.
Qed.

(** X8: for every statistics dictionary (a Python dict: its keys are
    distinct) in which no standard deviation is negative (not-a-number is
    allowed), [create_barplot] raises no error and draws one bar per entry,
    in the order of the entries: the bar carries the entry's key, its mean
    as height, its standard deviation as error bar, and its value label 5
    above the height.  With a negative standard deviation the call fails,
    as Matplotlib refuses a negative error bar. *)
Theorem create_barplot_bars (stats_dict : dict group_stats) :
  NoDup (map fst stats_dict) ->
  (Forall (fun kv => negative_err (Standardavvikelse (snd kv)) = false) stats_dict ->
   create_barplot stats_dict
   = Some (map (fun kv =>
                  {| bar_label := fst kv;
                     bar_height := Medelvarde (snd kv);
                     bar_yerr := Standardavvikelse (snd kv);
                     bar_text_y := (Medelvarde (snd kv) + 5)%float |})
               stats_dict))
  /\ (Exists (fun kv => negative_err (Standardavvikelse (snd kv)) = true) stats_dict ->
      create_barplot stats_dict = None).
Proof.
  intro Hnd. rewrite (create_barplot_eq stats_dict Hnd).
  destruct (existsb _ stats_dict) eqn:E; split; intro H; try reflexivity.
  - exfalso. apply existsb_exists in E. destruct E as (kv & Hin & Hneg).
    rewrite Forall_forall in H. rewrite (H kv Hin) in Hneg. discriminate.
  - exfalso. apply Exists_exists in H. destruct H as (kv & Hin & Hneg).
    assert (E' : existsb (fun kv => negative_err (Standardavvikelse (snd kv)))
                   stats_dict = true)
      by (apply existsb_exists; exists kv; split; assumption).
    rewrite E' in E. discriminate.
Qed.

Lemma create_barplot_bars_witness :
  create_barplot
    [ ("Man", {| Medelvarde := 47.5; Standardavvikelse := 2.5; Antal := 2 |});
      ("Kvinna", {| Medelvarde := 85; Standardavvikelse := nan; Antal := 2 |}) ]%float
  = Some [ {| bar_label := "Man"; bar_height := 47.5; bar_yerr := 2.5;
              bar_text_y := 52.5 |};
           {| bar_label := "Kvinna"; bar_height := 85; bar_yerr := nan;
              bar_text_y := 90 |} ]%float
  /\ create_barplot
       [ ("Man", {| Medelvarde := 47.5; Standardavvikelse := -2.5; Antal := 2 |});
         ("Kvinna", {| Medelvarde := 85; Standardavvikelse := 5; Antal := 2 |}) ]%float
     = None.
Proof.
  split.
  - apply (create_barplot_bars
             [ ("Man", {| Medelvarde := 47.5; Standardavvikelse := 2.5; Antal := 2 |});
               ("Kvinna", {| Medelvarde := 85; Standardavvikelse := nan; Antal := 2 |}) ]%float).
    + repeat constructor; cbn; intuition discriminate.
    + repeat constructor.
  - apply (create_barplot_bars
             [ ("Man", {| Medelvarde := 47.5; Standardavvikelse := -2.5; Antal := 2 |});
               ("Kvinna", {| Medelvarde := 85; Standardavvikelse := 5; Antal := 2 |}) ]%float).
    + repeat constructor; cbn; intuition discriminate.
    + left. reflexivity.
Defined.

(** The standard deviations of an analysis pass Matplotlib's test. *)
Lemma nonneg_not_negative_err x :
  SFnonneg (Prim2SF x) = true -> negative_err x = false.
Proof.
  unfold negative_err. rewrite ltb_spec, opp_spec.
  destruct (Prim2SF x) as [[]|[]| |[] m e]; intro H; try discriminate;
    reflexivity.
Qed.

(** X11: after a successful analysis [create_barplot] raises no error on
    the returned statistics, for every input data frame: it draws the bar
    "Man" and then the bar "Kvinna", each with the group's mean as height
    and the reported standard deviation, which is never negative, as error
    bar. *)
Theorem barplot_of_analysis
    (stdtr : float -> float -> float) (df : DataFrame)
    (t p : float) (stats : dict group_stats) (raw : dict (list float)) :
  fst (perform_ttest stdtr df) = (Some t, Some p, Some stats, Some raw) ->
  create_barplot stats
  = Some [ {| bar_label := "Man";
              bar_height := Np.mean (values_where "Man" df);
              bar_yerr := Np.std 0 (values_where "Man" df);
              bar_text_y := (Np.mean (values_where "Man" df) + 5)%float |};
           {| bar_label := "Kvinna";
              bar_height := Np.mean (values_where "Kvinna" df);
              bar_yerr := Np.std 0 (values_where "Kvinna" df);
              bar_text_y := (Np.mean (values_where "Kvinna" df) + 5)%float |} ].
Proof.
  intro H. apply perform_ttest_success in H. cbv zeta in H.
  destruct H as (_ & _ & _ & _ & -> & _).
  rewrite create_barplot_eq
    by (repeat constructor; cbn; intuition discriminate).
  cbn [existsb snd Standardavvikelse].
  rewrite !nonneg_not_negative_err by apply Float64Sign.std_nonneg.
  reflexivity.
Qed.

Lemma barplot_of_analysis_witness :
  create_barplot
    [ ("Man", {| Medelvarde := 47.5; Standardavvikelse := 2.5; Antal := 2 |});
      ("Kvinna", {| Medelvarde := 85; Standardavvikelse := 5; Antal := 2 |}) ]%float
  = Some [ {| bar_label := "Man"; bar_height := 47.5; bar_yerr := 2.5;
              bar_text_y := 52.5 |};
           {| bar_label := "Kvinna"; bar_height := 85; bar_yerr := 5;
              bar_text_y := 90 |} ]%float.
Proof.
  refine (barplot_of_analysis step_cdf scenario_A
            (Spec.welch_t 47.5 85 12.5 2 50 2) 0%float _ _ _).
  vm_compute. reflexivity.
Defined.

(** * The status message of the page *)

Section Page.

Variable stdtr : float -> float -> float.

Lemma page_messages_empty st :
  data st = [] ->
  page_messages stdtr st
  = Some [st_info "Ingen data har registrerats ännu. Använd formuläret ovan för att lägga till data."].
Proof. intro E. unfold page_messages. rewrite E. reflexivity. Qed.

Lemma page_messages_nonempty st :
  data st <> [] ->
  page_messages stdtr st
  = match fst (fst (fst (fst (perform_ttest stdtr (data st))))) with
    | Some _ =>
        match snd (fst (fst (fst (perform_ttest stdtr (data st))))) with
        | Some p => Some (map st_shown (snd (perform_ttest stdtr (data st)))
                          ++ [significance p])
        | None => None
        end
    | None => Some (map st_shown (snd (perform_ttest stdtr (data st))))
    end.
Proof.
  intro Hne. unfold page_messages.
  destruct (Z.eqb_spec (Py.len (data st)) 0) as [E | _];
    [apply NpFacts.len_zero_iff in E; contradiction |].
  cbn [negb].
  destruct (perform_ttest stdtr (data st)) as [[[[t_stat p_val] s] r] w].
  reflexivity.
Qed.

(** With both groups present the page shows the verdict on the p-value. *)
Lemma page_messages_verdict st :
  values_where "Man" (data st) <> [] ->
  values_where "Kvinna" (data st) <> [] ->
  page_messages stdtr st
  = Some [significance
            (snd (ttest_ind stdtr (values_where "Man" (data st))
                    (values_where "Kvinna" (data st))))].
Proof.
  intros Ha Hb.
  assert (Hne : data st <> []) by (intro E; rewrite E in Ha; apply Ha; reflexivity).
  rewrite (page_messages_nonempty st Hne).
  destruct (perform_ttest_cases stdtr (data st))
    as [(Hc & _) | (_ & _ & _ & E)]; cbv zeta in *.
  - exfalso. rewrite !NpFacts.len_zero_iff in Hc.
    pose proof (groups_within (data st)) as W.
    apply NpFacts.len_pos in Ha, Hb.
    destruct Hc as [Hc | [Hc | Hc]]; [lia | | ]; rewrite Hc in *;
      unfold Py.len in *; cbn in *; lia.
  - rewrite E. reflexivity.
Qed.

End Page.

(** X9: the page shows exactly one status message and never fails on the
    verdict: the notice that nothing was recorded for an empty store, the
    warning about too few participants for a single observation, the warning
    about a missing group when there are at least two observations and one
    of the groups is empty, and otherwise the verdict on the p-value. *)
Theorem page_shows_one_message (stdtr : float -> float -> float) (st : session_state) :
  (exists m, page_messages stdtr st = Some [m])
  /\ (data st = [] ->
      page_messages stdtr st
      = Some [st_info "Ingen data har registrerats ännu. Använd formuläret ovan för att lägga till data."])
  /\ (Py.len (data st) = 1 ->
      page_messages stdtr st
      = Some [st_shown (st_warning "För få deltagare för att utföra statistisk analys.")])
  /\ (2 <= Py.len (data st) ->
      values_where "Man" (data st) = [] \/ values_where "Kvinna" (data st) = [] ->
      page_messages stdtr st
      = Some [st_shown (st_warning "Data saknas för ett eller båda könen.")])
  /\ (values_where "Man" (data st) <> [] ->
      values_where "Kvinna" (data st) <> [] ->
      page_messages stdtr st
      = Some [significance
                (snd (ttest_ind stdtr (values_where "Man" (data st))
                        (values_where "Kvinna" (data st))))]).
Proof.
  assert (Hone : Py.len (data st) = 1 ->
      page_messages stdtr st
      = Some [st_shown (st_warning "För få deltagare för att utföra statistisk analys.")]).
  { intro H1. rewrite page_messages_nonempty
      by (intro E; rewrite E in H1; discriminate H1).
    unfold perform_ttest. rewrite H1. reflexivity. }
  assert (Hmiss : 2 <= Py.len (data st) ->
      values_where "Man" (data st) = [] \/ values_where "Kvinna" (data st) = [] ->
      page_messages stdtr st
      = Some [st_shown (st_warning "Data saknas för ett eller båda könen.")]).
  { intros H2 Hg. rewrite page_messages_nonempty
      by (intro E; rewrite E in H2; unfold Py.len in H2; cbn in H2; lia).
    unfold perform_ttest. rewrite set_Tid_id.
    destruct (Z.ltb_spec (Py.len (data st)) 2) as [? | _]; [lia |].
    destruct Hg as [-> | ->]; cbn [Py.len List.length Z.of_nat Z.eqb orb];
      [reflexivity |].
    rewrite Bool.orb_true_r. reflexivity. }
  split; [| repeat split; auto using page_messages_empty, page_messages_verdict].
  pose proof (page_messages_verdict stdtr st) as Hverdict.
  destruct (data st) as [|r rows] eqn:Ed.
  { eexists. apply page_messages_empty. exact Ed. }
  assert (Hlen : Py.len (r :: rows) = 1 \/ 2 <= Py.len (r :: rows))
    by (unfold Py.len; cbn [List.length]; lia).
  destruct (values_where "Man" (r :: rows)) as [|a A].
  { destruct Hlen as [H1 | H2]; eexists; [apply Hone, H1 | apply Hmiss; auto]. }
  destruct (values_where "Kvinna" (r :: rows)) as [|b B].
  { destruct Hlen as [H1 | H2]; eexists; [apply Hone, H1 | apply Hmiss; auto]. }
  eexists. apply Hverdict; discriminate.
Qed.

(** X10: when both groups are present and one of them has exactly one
    member, the p-value is not a number, the comparison [p_val < 0.05] is
    false, and the page reports that no significant difference was found
    (p > 0.05). *)
Theorem singleton_group_verdict (stdtr : float -> float -> float) (st : session_state) :
  propagates_nan stdtr ->
  values_where "Man" (data st) <> [] ->
  values_where "Kvinna" (data st) <> [] ->
  Py.len (values_where "Man" (data st)) = 1
  \/ Py.len (values_where "Kvinna" (data st)) = 1 ->
  page_messages stdtr st
  = Some [st_info "Ingen signifikant skillnad hittades mellan män och kvinnor (p > 0.05)"].
Proof.
  intros Hnan Ha Hb Hone.
  rewrite page_messages_verdict by assumption.
  rewrite (ttest_ind_singleton stdtr Hnan _ _ Ha Hb Hone).
  reflexivity.
Qed.

Lemma singleton_group_verdict_witness :
  page_messages step_cdf
    {| data := [ {| Deltagare := 1; Kon := "Man"; Tid := 45 |};
                 {| Deltagare := 2; Kon := "Kvinna"; Tid := 80 |};
                 {| Deltagare := 3; Kon := "Kvinna"; Tid := 90 |} ]%float;
       counter := 4 |}
  = Some [st_info "Ingen signifikant skillnad hittades mellan män och kvinnor (p > 0.05)"].
Proof.
  apply (singleton_group_verdict step_cdf _ step_cdf_propagates_nan).
  - discriminate.
  - discriminate.
  - left. reflexivity.
Defined.
